(** * ncchecknodefile: the NerveCenter node list validator

    A shallow embedding of [ncchecknodefile.py] (the scan that starts at the
    line [print('Checking node file '+node_filename)]) and the properties of
    its specification.

    Conventions of the embedding.
    - A Python [str] is a [string]; the character [ascii] number [n] stands
      for the code point [n], so the model covers the files whose code points
      are below 256.
    - A module-level variable that holds a [str] or [None] is an
      [option string]; [None] is Python's [None].
    - The three dictionaries are [gmap]s from [string] to [option string]:
      their keys are always [str], their values may be [None].
    - Python's unbounded, never negative counters are numbers of type [N].
    - [print] appends one entry to the list [stdout].
    - Exceptions, [sys.exit] included, are results of a state and exception
      monad; the state at the point of the raise is kept. *)

From Stdlib Require Import ZArith NArith String Ascii List DecimalString.
From stdpp Require Import gmap strings list fin_maps.

Local Open Scope string_scope.
Local Open Scope N_scope.

(** ** Strings *)

Module PyStr.

(** [str.isspace] on one character, for the code points below 256:
    tab to carriage return, the four separators 0x1c-0x1f, the space,
    NEL (0x85) and the no-break space (0xa0). *)
Definition isspace (c : ascii) : bool :=
  let n := N_of_ascii c in
  ((9 <=? n) && (n <=? 13)) || ((28 <=? n) && (n <=? 32))
  || (n =? 133) || (n =? 160).

Fixpoint lstrip (s : string) : string :=
  match s with
  | EmptyString => EmptyString
  | String c s' => if isspace c then lstrip s' else s
  end.

Fixpoint rstrip (s : string) : string :=
  match s with
  | EmptyString => EmptyString
  | String c s' =>
      match rstrip s' with
      | EmptyString => if isspace c then EmptyString else String c EmptyString
      | r => String c r
      end
  end.

(** [line.strip()] *)
Definition strip (s : string) : string := rstrip (lstrip s).

(** [line.partition(" ")]: the part before the first space, the separator
    and the part after it; without a space, the line and two empty strings. *)
Fixpoint partition_space (s : string) : string * string * string :=
  match s with
  | EmptyString => (EmptyString, EmptyString, EmptyString)
  | String c s' =>
      if Ascii.eqb c " "%char then (EmptyString, " ", s')
      else let '(h, sep, t) := partition_space s' in (String c h, sep, t)
  end.

(** [str(n)] for a counter or a line number *)
Definition str (n : N) : string := NilEmpty.string_of_uint (N.to_uint n).

End PyStr.
Import PyStr.

(** ** The interpreter state: the module-level variables and the console *)

Record state := mkState {
  node_count : N;
  warnings : N;
  errors : N;
  node_id : option string;
  node_name : option string;
  node_start_line : option string;
  address : option string;
  nodename_to_line : gmap string (option string);
  ipaddr_to_nodename : gmap string (option string);
  nodeid_to_line : gmap string (option string);
  line_number : N;
  stdout : list string
}.

(** The dictionary [nodename_to_id] of the script is created and never
    used; it is left out. [address] and [line_number] are unbound until
    their first assignment; they start here as [None] and [0]. *)
Definition initial : state :=
  {| node_count := 0; warnings := 0; errors := 0;
     node_id := None; node_name := None; node_start_line := None;
     address := None;
     nodename_to_line := ∅; ipaddr_to_nodename := ∅; nodeid_to_line := ∅;
     line_number := 0; stdout := [] |}.

Definition set_node_count (v : N) (s : state) : state :=
  mkState v (warnings s) (errors s) (node_id s) (node_name s)
    (node_start_line s) (address s) (nodename_to_line s)
    (ipaddr_to_nodename s) (nodeid_to_line s) (line_number s) (stdout s).
Definition set_warnings (v : N) (s : state) : state :=
  mkState (node_count s) v (errors s) (node_id s) (node_name s)
    (node_start_line s) (address s) (nodename_to_line s)
    (ipaddr_to_nodename s) (nodeid_to_line s) (line_number s) (stdout s).
Definition set_errors (v : N) (s : state) : state :=
  mkState (node_count s) (warnings s) v (node_id s) (node_name s)
    (node_start_line s) (address s) (nodename_to_line s)
    (ipaddr_to_nodename s) (nodeid_to_line s) (line_number s) (stdout s).
Definition set_node_id (v : option string) (s : state) : state :=
  mkState (node_count s) (warnings s) (errors s) v (node_name s)
    (node_start_line s) (address s) (nodename_to_line s)
    (ipaddr_to_nodename s) (nodeid_to_line s) (line_number s) (stdout s).
Definition set_node_name (v : option string) (s : state) : state :=
  mkState (node_count s) (warnings s) (errors s) (node_id s) v
    (node_start_line s) (address s) (nodename_to_line s)
    (ipaddr_to_nodename s) (nodeid_to_line s) (line_number s) (stdout s).
Definition set_node_start_line (v : option string) (s : state) : state :=
  mkState (node_count s) (warnings s) (errors s) (node_id s) (node_name s)
    v (address s) (nodename_to_line s)
    (ipaddr_to_nodename s) (nodeid_to_line s) (line_number s) (stdout s).
Definition set_address (v : option string) (s : state) : state :=
  mkState (node_count s) (warnings s) (errors s) (node_id s) (node_name s)
    (node_start_line s) v (nodename_to_line s)
    (ipaddr_to_nodename s) (nodeid_to_line s) (line_number s) (stdout s).
Definition set_nodename_to_line (v : gmap string (option string)) (s : state)
  : state :=
  mkState (node_count s) (warnings s) (errors s) (node_id s) (node_name s)
    (node_start_line s) (address s) v
    (ipaddr_to_nodename s) (nodeid_to_line s) (line_number s) (stdout s).
Definition set_ipaddr_to_nodename (v : gmap string (option string))
  (s : state) : state :=
  mkState (node_count s) (warnings s) (errors s) (node_id s) (node_name s)
    (node_start_line s) (address s) (nodename_to_line s)
    v (nodeid_to_line s) (line_number s) (stdout s).
Definition set_nodeid_to_line (v : gmap string (option string)) (s : state)
  : state :=
  mkState (node_count s) (warnings s) (errors s) (node_id s) (node_name s)
    (node_start_line s) (address s) (nodename_to_line s)
    (ipaddr_to_nodename s) v (line_number s) (stdout s).
Definition set_line_number (v : N) (s : state) : state :=
  mkState (node_count s) (warnings s) (errors s) (node_id s) (node_name s)
    (node_start_line s) (address s) (nodename_to_line s)
    (ipaddr_to_nodename s) (nodeid_to_line s) v (stdout s).
Definition set_stdout (v : list string) (s : state) : state :=
  mkState (node_count s) (warnings s) (errors s) (node_id s) (node_name s)
    (node_start_line s) (address s) (nodename_to_line s)
    (ipaddr_to_nodename s) (nodeid_to_line s) (line_number s) v.

(** ** Exceptions and the monad of the script *)

(** The exceptions the scan can meet. [SystemExit c] is what [sys.exit(c)]
    raises. [open] raises [FileNotFoundError] for a path that does not
    exist, [PermissionError] for a file the user may not read and
    [IsADirectoryError] for a directory. *)
Inductive exn : Type :=
  | SystemExit (code : Z)
  | TypeError
  | KeyError
  | FileNotFoundError
  | PermissionError
  | IsADirectoryError.

Inductive res (A : Type) : Type :=
  | Ok (a : A)
  | Raise (e : exn).
Arguments Ok {A} a.
Arguments Raise {A} e.

Definition M (A : Type) : Type := state -> res A * state.

Definition ret {A : Type} (a : A) : M A := fun s => (Ok a, s).

Definition bind {A B : Type} (m : M A) (k : A -> M B) : M B :=
  fun s =>
    match m s with
    | (Ok a, s') => k a s'
    | (Raise e, s') => (Raise e, s')
    end.

Definition raise {A : Type} (e : exn) : M A := fun s => (Raise e, s).

Definition get : M state := fun s => (Ok s, s).

Definition modify (f : state -> state) : M unit := fun s => (Ok tt, f s).

Declare Scope py_scope.
Delimit Scope py_scope with py.
Notation "x <- c ;; k" := (bind c (fun x => k))
  (at level 100, c at next level, right associativity) : py_scope.
Notation "c ;; k" := (bind c (fun _ => k))
  (at level 100, right associativity) : py_scope.
Local Open Scope py_scope.

(** [print(x)] *)
Definition print (x : string) : M unit :=
  modify (fun s => set_stdout (stdout s ++ [x]) s).

(** [a + b] where [a] is a [str]: a [TypeError] when [b] is [None]. *)
Definition str_add (a : string) (b : option string) : M string :=
  match b with
  | Some b => ret (a +:+ b)
  | None => raise TypeError
  end.
Infix "+!" := str_add (at level 50, left associativity) : py_scope.

(** [d[k]]: a [KeyError] when [k] is not a key of [d]; [None] is never
    one, the keys being strings. *)
Definition getitem (d : gmap string (option string)) (k : option string)
  : M (option string) :=
  match k with
  | None => raise KeyError
  | Some k =>
      match d !! k with
      | Some v => ret v
      | None => raise KeyError
      end
  end.

(** [k in d] *)
Definition contains (d : gmap string (option string)) (k : string) : bool :=
  bool_decide (is_Some (d !! k)).

Definition when (b : bool) (m : M unit) : M unit := if b then m else ret tt.

(** [try: body except E: handler], [caught] telling the exceptions [E]
    matches. *)
Definition try_except {A : Type} (body : M A) (caught : exn -> bool)
  (handler : M A) : M A :=
  fun s =>
    match body s with
    | (Raise e, s') => if caught e then handler s' else (Raise e, s')
    | r => r
    end.

Fixpoint for_each {A : Type} (xs : list A) (body : A -> M unit) : M unit :=
  match xs with
  | [] => ret tt
  | x :: xs' => body x ;; for_each xs' body
  end.

(** ** The scan *)

(** The body of [for line in a_file:] (lines 136-217 of the script). The
    [continue] of an empty line is the early [ret tt]. *)
Definition loop_body (verbose_mode : bool) (line : string) : M unit :=
  modify (fun s => set_line_number (line_number s + 1) s) ;;
  let line := strip line in
  (* parse the line into keyword and value *)
  let '(e0, _, e2) := partition_space line in
  if (0 =? String.length e0)%nat then ret tt
  else
    (if (("begin" =? e0) && ("node" =? e2))%string then
       modify (fun s => set_node_count (node_count s + 1) s) ;;
       (* remember where a node defn begins *)
       modify (fun s => set_node_start_line (Some (str (line_number s))) s) ;;
       when verbose_mode
         (s <- get ;;
          t <- "New node starting at line " +! node_start_line s ;;
          print t)
     else ret tt) ;;
    if (("end" =? e0) && ("node" =? e2))%string then
      s <- get ;;
      (if bool_decide (0 < size (nodeid_to_line s))%nat
          && bool_decide (node_id s = None) then
         modify (fun s => set_warnings (warnings s + 1) s) ;;
         s <- get ;;
         t1 <- "WARNING: Node " +! node_name s ;;
         t2 <- (t1 +:+ " at line ") +! node_start_line s ;;
         print (t2 +:+ " does not have an id")
       else ret tt) ;;
      when verbose_mode
        (s <- get ;; print ("  ends at line " +:+ str (line_number s))) ;;
      (* remember that a node defn has ended *)
      modify (set_node_start_line None) ;;
      modify (set_node_id None)
    else if ("id" =? e0)%string then
      (* hold onto the current node id *)
      modify (set_node_id (Some e2)) ;;
      when verbose_mode
        (s <- get ;; t <- "  id " +! node_id s ;; print t) ;;
      (* check whether any other node also has this id *)
      s <- get ;;
      if contains (nodeid_to_line s) e2 then
        modify (fun s => set_errors (errors s + 1) s) ;;
        s <- get ;;
        other <- getitem (nodeid_to_line s) (node_id s) ;;
        t1 <- "ERROR: The nodes at line " +! other ;;
        t2 <- (t1 +:+ " and ") +! node_start_line s ;;
        t3 <- (t2 +:+ " both have the id ") +! node_id s ;;
        print t3
      else
        modify (fun s =>
          set_nodeid_to_line
            (<[e2 := node_start_line s]> (nodeid_to_line s)) s)
    else if ("name" =? e0)%string then
      (* hold onto the current node name *)
      modify (set_node_name (Some e2)) ;;
      when verbose_mode
        (s <- get ;; t <- "  name " +! node_name s ;; print t) ;;
      (* check whether any other node also has this name *)
      s <- get ;;
      if contains (nodename_to_line s) e2 then
        modify (fun s => set_errors (errors s + 1) s) ;;
        s <- get ;;
        other <- getitem (nodename_to_line s) (node_name s) ;;
        t1 <- "ERROR: The nodes at line " +! other ;;
        t2 <- (t1 +:+ " and ") +! node_start_line s ;;
        t3 <- (t2 +:+ " both have the name ") +! node_name s ;;
        print t3
      else
        modify (fun s =>
          set_nodename_to_line
            (<[e2 := node_start_line s]> (nodename_to_line s)) s)
    else if ("address" =? e0)%string then
      (* hold onto the current node ip-address *)
      modify (set_address (Some e2)) ;;
      when verbose_mode
        (s <- get ;; t <- "  address " +! address s ;; print t) ;;
      (* check whether any other node also has this ip-address *)
      s <- get ;;
      if contains (ipaddr_to_nodename s) e2 then
        other_node_nodename <- getitem (ipaddr_to_nodename s) (address s) ;;
        other_node_start_line <-
          getitem (nodename_to_line s) other_node_nodename ;;
        modify (fun s => set_warnings (warnings s + 1) s) ;;
        s <- get ;;
        t1 <- "WARNING: Node " +! node_name s ;;
        t2 <- (t1 +:+ " (line ") +! node_start_line s ;;
        t3 <- (t2 +:+ ") and node ") +! other_node_nodename ;;
        t4 <- (t3 +:+ " (line ") +! other_node_start_line ;;
        t5 <- (t4 +:+ ") both have ip address ") +! address s ;;
        print t5
      else
        modify (fun s =>
          set_ipaddr_to_nodename
            (<[e2 := node_name s]> (ipaddr_to_nodename s)) s)
    else ret tt.

(** What [open(node_filename, encoding='utf-8')] gives: the lines of the
    file, as the iteration over the file object yields them, or the
    exception it raises. *)
Inductive open_result : Type :=
  | Opened (lines : list string)
  | OpenError (e : exn).

Definition open_file (r : open_result) : M (list string) :=
  match r with
  | Opened lines => ret lines
  | OpenError e => raise e
  end.

Definition sys_exit (code : Z) : M unit := raise (SystemExit code).

Definition is_FileNotFoundError (e : exn) : bool :=
  match e with FileNotFoundError => true | _ => false end.

(** Lines 133-220: the scan and the summary line. *)
Definition scan (verbose_mode : bool) (a_file : open_result) : M unit :=
  modify (set_line_number 0) ;;
  lines <- open_file a_file ;;
  for_each lines (loop_body verbose_mode) ;;
  (* end of file has been reached. this is the normal point of exit *)
  s <- get ;;
  print ("Finished. " +:+ str (node_count s) +:+ " nodes, "
         +:+ str (errors s) +:+ " errors" +:+ str (warnings s)
         +:+ " warnings").

(** Lines 90-230: the script after the parsing of its options. *)
Definition script (verbose_mode : bool) (node_filename : string)
  (a_file : open_result) : M unit :=
  print ("Checking node file " +:+ node_filename) ;;
  try_except
    (scan verbose_mode a_file ;;
     s <- get ;;
     let result := if 0 <? errors s then 1%Z else 0%Z in
     sys_exit result)
    is_FileNotFoundError
    (* we arrive here directly if the above 'with open' fails *)
    (print ("    Cannot access file " +:+ node_filename) ;;
     sys_exit 2).

(** The status of the process: the argument of [sys.exit]; 1 after the
    traceback of an exception nothing catches; 0 at the end of the script. *)
Definition exit_status {A : Type} (r : res A) : Z :=
  match r with
  | Raise (SystemExit c) => c
  | Raise _ => 1%Z
  | Ok _ => 0%Z
  end.

Definition main (verbose_mode : bool) (node_filename : string)
  (a_file : open_result) : res unit * state :=
  script verbose_mode node_filename a_file initial.

(** The scan of the lines alone, from any state. *)
Definition run (verbose_mode : bool) (lines : list string) : M unit :=
  for_each lines (loop_body verbose_mode).

(** ** Derived notions used by the properties *)

(** The state in which the scan of the lines starts: the banner is printed
    and [line_number] is 0. *)
Definition start (node_filename : string) : state :=
  set_line_number 0
    (snd (print ("Checking node file " +:+ node_filename) initial)).

(** The [for] loop ends without an exception: the end of the file is
    reached. *)
Definition reaches_eof (v : bool) (node_filename : string)
  (lines : list string) : Prop :=
  fst (run v lines (start node_filename)) = Ok tt.

(** The keyword of a line: [elements[0]]. *)
Definition keyword (line : string) : string :=
  let '(e0, _, _) := partition_space (strip line) in e0.

(** The three registries of the scan. *)
Inductive registry : Type := IdRegistry | NameRegistry | AddressRegistry.

Definition table (r : registry) (s : state) : gmap string (option string) :=
  match r with
  | IdRegistry => nodeid_to_line s
  | NameRegistry => nodename_to_line s
  | AddressRegistry => ipaddr_to_nodename s
  end.

(** [x.startswith(p)] *)
Fixpoint startswith (p x : string) : bool :=
  match p with
  | EmptyString => true
  | String a p' =>
      match x with
      | EmptyString => false
      | String b x' => Ascii.eqb a b && startswith p' x'
      end
  end.

(** A WARNING or ERROR line of the console. *)
Definition is_diagnostic (x : string) : bool :=
  startswith "WARNING: " x || startswith "ERROR: " x.

Definition diagnostics (out : list string) : list string :=
  List.filter is_diagnostic out.

(** A line that only the verbose mode prints. *)
Definition is_info (x : string) : bool :=
  startswith "New node starting at line " x
  || startswith "  ends at line " x
  || startswith "  id " x
  || startswith "  name " x
  || startswith "  address " x.

Definition without_info (out : list string) : list string :=
  List.filter (fun x => negb (is_info x)) out.

(** The state of a verbose run and the state of a quiet run at the same
    line: they differ in the console only; the quiet console is the verbose
    one without its informational lines, and the diagnostics are the same. *)
Definition agree (sv sq : state) : Prop :=
  sq = set_stdout (stdout sq) sv /\
  diagnostics (stdout sv) = diagnostics (stdout sq) /\
  stdout sq = without_info (stdout sv).

(** The console formats of the two warnings. *)
Definition missing_id_warning (name start_line : string) : string :=
  "WARNING: Node " +:+ name +:+ " at line " +:+ start_line
  +:+ " does not have an id".

Definition shared_address_warning
  (name start_line other other_line addr : string) : string :=
  "WARNING: Node " +:+ name +:+ " (line " +:+ start_line
  +:+ ") and node " +:+ other +:+ " (line " +:+ other_line
  +:+ ") both have ip address " +:+ addr.

(** The informational line of a line of the file, in verbose mode. *)
Definition info_line (v : bool) (x : string) : list string :=
  if v then [x] else [].

(** ** The lines as the specification reads them

    The claims speak of whitespace-delimited tokens and of pairs of
    [begin node] and [end node] lines. These definitions follow those words,
    not the script; they are what the script is compared with. *)
Module Spec.

(** The whitespace-delimited tokens of a line, [cur] being the token that
    is being read. *)
Fixpoint words (cur : string) (s : string) : list string :=
  match s with
  | EmptyString =>
      match cur with EmptyString => [] | _ => [cur] end
  | String c s' =>
      if isspace c
      then match cur with
           | EmptyString => words EmptyString s'
           | _ => cur :: words EmptyString s'
           end
      else words (cur +:+ String c EmptyString) s'
  end.

Definition tokens (line : string) : list string := words EmptyString line.

(** "its first whitespace-delimited token is [begin] and the token
    immediately following it is [node]" *)
Definition record_start (line : string) : bool :=
  match tokens line with
  | a :: b :: _ => (a =? "begin")%string && (b =? "node")%string
  | _ => false
  end.

Definition record_end (line : string) : bool :=
  match tokens line with
  | a :: b :: _ => (a =? "end")%string && (b =? "node")%string
  | _ => false
  end.

(** The number of [begin node]/[end node] pairs of a file: the records
    that are started and ended, [inside] telling whether a record is open. *)
Fixpoint pairs (inside : bool) (lines : list string) : nat :=
  match lines with
  | [] => 0%nat
  | l :: rest =>
      if record_start l then pairs true rest
      else if record_end l
           then ((if inside then 1 else 0) + pairs false rest)%nat
           else pairs inside rest
  end.

End Spec.

(** ** Field values, error formats and the options of the command line *)

(** The value of a line: [elements[2]]. *)
Definition value (line : string) : string :=
  let '(_, _, e2) := partition_space (strip line) in e2.

(** The console formats of the two errors. *)
Definition duplicate_id_error (first_line this_line id : string) : string :=
  "ERROR: The nodes at line " +:+ first_line +:+ " and " +:+ this_line
  +:+ " both have the id " +:+ id.

Definition duplicate_name_error (first_line this_line name : string)
  : string :=
  "ERROR: The nodes at line " +:+ first_line +:+ " and " +:+ this_line
  +:+ " both have the name " +:+ name.

(** The number of lines of a file that are record starts. *)
Definition count_begin (lines : list string) : nat :=
  length (List.filter (fun l => (strip l =? "begin node")%string) lines).


(** Lines 27-87 of the script: the usage text and the loop over the
    options. [getopt.getopt] is a library function; what it returns is a
    parameter of the model. *)
Module Cli.

(** The default of [node_filename]. *)
Definition default_node_filename : string := "/opt/OSInc/db/nervecenter.node".

Definition nl : string := String "010"%char EmptyString.

(** [myusage()]: its six calls of [print], [myname] being [sys.argv[0]]. *)
Definition myusage (myname : string) : list string :=
  [ nl +:+
    "This command checks the integrity of a NerveCenter node file. It" +:+ nl
    +:+ "reads but does not modify the indicated file." +:+ nl
    +:+ nl
    +:+ "Warnings and errors will be stated if enountered. When finished"
    +:+ nl
    +:+ "it will state the file's node count and if any errors or warnings"
    +:+ nl
    +:+ "were encountered." +:+ nl;
    "usage:";
    "    " +:+ myname +:+ " [-v] [-f <nodefile>]";
    "  or";
    "    " +:+ myname +:+ " [--verbose] [--file <nodefile>]";
    nl +:+
    "  -v | --verbose" +:+ nl
    +:+ "        Talkative mode. Default is to be quiet and" +:+ nl
    +:+ "        only speak up if something is wrong." +:+ nl
    +:+ nl
    +:+ "  -f | --filename" +:+ nl
    +:+ "        Name a file to check. This defaults to" +:+ nl
    +:+ "        file /opt/OSInc/db/nervecenter.node" +:+ nl ].

(** What [getopt.getopt(sys.argv[1:], "f:hv", ["file=","help","verbose"])]
    gives: the pairs of an option and its argument, or [GetoptError]. *)
Inductive getopt_result : Type :=
  | Options (user_options : list (string * string))
  | GetoptError.

(** How the parsing of the options ends: the scan starts with a verbosity
    and a file name; the usage is printed and [sys.exit(code)] is called; or
    [arg[0]] raises an [IndexError] that nothing catches. *)
Inductive startup : Type :=
  | Start (verbose_mode : bool) (node_filename : string)
  | Usage (code : Z)
  | IndexError.

(** The loop [for opt, arg in user_options:] (lines 70-84). *)
Fixpoint options_loop (user_options : list (string * string))
  (verbose_mode : bool) (node_filename : string) : startup :=
  match user_options with
  | [] => Start verbose_mode node_filename
  | (opt, arg) :: rest =>
      if ((opt =? "-h") || (opt =? "--help"))%string then Usage 0
      else if ((opt =? "-v") || (opt =? "--verbose"))%string then
        (* let's be talkative *)
        options_loop rest true node_filename
      else if ((opt =? "-f") || (opt =? "--file"))%string then
        (* arg has the filename. clean and remove any leading '=' *)
        let arg := strip arg in
        match arg with
        | EmptyString => IndexError
        | String c tl =>
            if Ascii.eqb c "="%char
            then options_loop rest verbose_mode (strip tl)
            else options_loop rest verbose_mode arg
        end
      else options_loop rest verbose_mode node_filename
  end.

(** Lines 67-87: the [try] around the loop. *)
Definition parse_options (g : getopt_result) : startup :=
  match g with
  | Options user_options =>
      options_loop user_options false default_node_filename
  | GetoptError => Usage 2
  end.

(** The whole script: the console and the status of the process.
    [fs] gives what [open] does for a path. *)
Definition program (myname : string) (g : getopt_result)
  (fs : string -> open_result) : list string * Z :=
  match parse_options g with
  | Start verbose_mode node_filename =>
      let r := main verbose_mode node_filename (fs node_filename) in
      (stdout (snd r), exit_status (fst r))
  | Usage code => (myusage myname, code)
  | IndexError => ([], 1%Z)
  end.

End Cli.

(** An option that switches the verbose mode on. *)
Definition is_verbose_option (o : string * string) : bool :=
  ((fst o =? "-v") || (fst o =? "--verbose"))%string.

(** ** Proof automation for the monadic code *)

(** Unfolds the operations of the monad and the accessors of the state,
    and nothing of the strings or of the dictionaries. *)
Ltac mred :=
  cbv beta iota zeta delta
    [bind ret modify get raise print when str_add getitem andb
     set_node_count set_warnings set_errors set_node_id set_node_name
     set_node_start_line set_address set_nodename_to_line
     set_ipaddr_to_nodename set_nodeid_to_line set_line_number set_stdout
     node_count warnings errors node_id node_name node_start_line address
     nodename_to_line ipaddr_to_nodename nodeid_to_line line_number stdout
     fst snd].

(** One case distinction on a test the code makes. *)
Ltac mcase :=
  match goal with
  | |- context [if ?b then _ else _] => is_var b; destruct b
  | |- context [match ?x with Some _ => _ | None => _ end] =>
      is_var x; destruct x
  | |- context [Nat.eqb ?a ?b] =>
      first [ let r := eval vm_compute in (Nat.eqb a b) in
              (match r with true => idtac | false => idtac end;
               change (Nat.eqb a b) with r)
            | destruct (Nat.eqb a b) eqn:? ]
  | |- context [String.eqb ?a ?b] =>
      first [ let r := eval vm_compute in (String.eqb a b) in
              (match r with true => idtac | false => idtac end;
               change (String.eqb a b) with r)
            | destruct (String.eqb a b) eqn:? ]
  | |- context [bool_decide ?P] => destruct (bool_decide P) eqn:?
  | |- context [contains ?d ?k] =>
      is_var d; is_var k; destruct (contains d k) eqn:?
  | |- context [@lookup _ _ (gmap _ _) _ ?k ?d] =>
      is_var d; is_var k; destruct (@lookup _ _ (gmap _ _) _ k d) eqn:?
  end.

Ltac mcases := mred; repeat (mcase; mred).

(** Decides [is_info] and [is_diagnostic] on a line whose first
    characters are known. *)
Ltac eval_flags :=
  repeat match goal with
  | |- context [is_info ?x] =>
      let r := eval lazy in (is_info x) in
      match r with true => idtac | false => idtac end;
      change (is_info x) with r
  | |- context [is_diagnostic ?x] =>
      let r := eval lazy in (is_diagnostic x) in
      match r with true => idtac | false => idtac end;
      change (is_diagnostic x) with r
  end.

Ltac agree_tac D W :=
  repeat split;
  unfold diagnostics, without_info in *;
  rewrite ?List.filter_app;
  rewrite <- ?W, ?D;
  cbv beta iota delta [List.filter];
  eval_flags; cbv beta iota delta [negb];
  rewrite ?app_nil_r; reflexivity.

(** ** Strings and dictionaries *)

Lemma partition_space_eq s h sep t :
  partition_space s = (h, sep, t) ->
  s = h +:+ sep +:+ t /\ (sep = " " \/ (sep = "" /\ t = "")).
Proof.
  revert h sep t. induction s as [|c s IH]; intros h sep t; cbn.
  - intros [= <- <- <-]. auto.
  - destruct (Ascii.eqb_spec c " "%char) as [->|Hc].
    + intros [= <- <- <-]. auto.
    + destruct (partition_space s) as [[h' sep'] t'].
      intros [= <- <- <-]. destruct (IH _ _ _ eq_refl) as [-> Hs].
      split; [reflexivity | exact Hs].
Qed.

Lemma string_app_assoc (a b c : string) : (a +:+ b) +:+ c = a +:+ (b +:+ c).
Proof.
  induction a as [|x a IH]; [reflexivity|].
  change (String x ((a +:+ b) +:+ c) = String x (a +:+ (b +:+ c))).
  rewrite IH. reflexivity.
Qed.

Lemma nonempty_size (d : gmap string (option string)) k x :
  d !! k = Some x -> bool_decide (0 < size d)%nat = true.
Proof.
  intros H. apply bool_decide_eq_true.
  assert (size d <> 0%nat) by (eapply map_size_ne_0_lookup_2; eauto).
  lia.
Qed.

Lemma empty_size : bool_decide (0 < size (∅ : gmap string (option string)))%nat = false.
Proof. apply bool_decide_eq_false. rewrite map_size_empty. lia. Qed.

Lemma contains_false (d : gmap string (option string)) k :
  contains d k = false -> d !! k = None.
Proof.
  unfold contains. intros H. apply bool_decide_eq_false in H.
  destruct (d !! k) eqn:E; [exfalso; apply H; eauto | reflexivity].
Qed.

Lemma contains_true (d : gmap string (option string)) k :
  contains d k = true -> exists v, d !! k = Some v.
Proof.
  unfold contains. intros H. apply bool_decide_eq_true in H.
  destruct H as [v Hv]. eauto.
Qed.

Lemma insert_fresh_keeps (d : gmap string (option string)) k k' v x :
  d !! k = None -> d !! k' = Some x -> <[k := v]> d !! k' = Some x.
Proof.
  intros Hk Hk'. rewrite lookup_insert_ne; [exact Hk' | congruence].
Qed.

Lemma loop_body_keeps_entries r v line s k x :
  table r s !! k = Some x -> table r (snd (loop_body v line s)) !! k = Some x.
Proof.
  intros H. unfold loop_body.
  destruct (partition_space (strip line)) as [[e0 sep] e2].
  destruct s; destruct r;
    cbn [table nodeid_to_line nodename_to_line ipaddr_to_nodename] in H |- *.
  all: mcases; try assumption.
  all: eapply insert_fresh_keeps; eauto using contains_false.
Qed.

Lemma run_cons v l ls s :
  run v (l :: ls) s =
  match loop_body v l s with
  | (Ok _, s') => run v ls s'
  | (Raise e, s') => (Raise e, s')
  end.
Proof. reflexivity. Qed.

Lemma run_app v ls1 ls2 s :
  run v (ls1 ++ ls2) s =
  match run v ls1 s with
  | (Ok _, s') => run v ls2 s'
  | (Raise e, s') => (Raise e, s')
  end.
Proof.
  revert s. induction ls1 as [|l ls1 IH]; intros s; [reflexivity|].
  cbn [app]. rewrite !run_cons.
  destruct (loop_body v l s) as [[[]|e] s']; [apply IH | reflexivity].
Qed.

Lemma run_keeps_entries r v lines s k x :
  table r s !! k = Some x -> table r (snd (run v lines s)) !! k = Some x.
Proof.
  revert s. induction lines as [|l lines IH]; intros s H; [exact H|].
  rewrite run_cons.
  pose proof (loop_body_keeps_entries r v l s k x H) as Hl.
  destruct (loop_body v l s) as [[[]|e] s']; cbn [snd] in *; auto.
Qed.



(** ** The verbose flag *)

Lemma agree_refl s : stdout s = without_info (stdout s) -> agree s s.
Proof. destruct s. unfold agree. mred. auto. Qed.

Lemma loop_body_verbose line sv sq :
  agree sv sq ->
  fst (loop_body true line sv) = fst (loop_body false line sq) /\
  agree (snd (loop_body true line sv)) (snd (loop_body false line sq)).
Proof.
  destruct sv, sq. unfold agree at 1. mred.
  intros [[= -> -> -> -> -> -> -> -> -> -> ->] [D W]].
  unfold loop_body, agree.
  destruct (partition_space (strip line)) as [[e0 sep] e2].
  mcases.
  all: agree_tac D W.
Qed.

Lemma run_verbose lines sv sq :
  agree sv sq ->
  fst (run true lines sv) = fst (run false lines sq) /\
  agree (snd (run true lines sv)) (snd (run false lines sq)).
Proof.
  revert sv sq. induction lines as [|l lines IH]; intros sv sq H.
  - split; [reflexivity | exact H].
  - rewrite !run_cons.
    destruct (loop_body_verbose l sv sq H) as [Hr Ha].
    destruct (loop_body true l sv) as [[[]|e] sv'],
             (loop_body false l sq) as [[[]|e'] sq'];
      cbn [fst snd] in *; try discriminate.
    + apply IH, Ha.
    + split; [exact Hr | exact Ha].
Qed.

Lemma script_opened v fn lines :
  main v fn (Opened lines) =
  match run v lines (start fn) with
  | (Ok _, s) =>
      let s' :=
        snd (print ("Finished. " +:+ str (node_count s) +:+ " nodes, "
                    +:+ str (errors s) +:+ " errors" +:+ str (warnings s)
                    +:+ " warnings") s) in
      (Raise (SystemExit (if 0 <? errors s' then 1%Z else 0%Z)), s')
  | (Raise e, s) =>
      if is_FileNotFoundError e
      then (Raise (SystemExit 2),
            snd (print ("    Cannot access file " +:+ fn) s))
      else (Raise e, s)
  end.
Proof.
  unfold main, script, scan, try_except, open_file, sys_exit, run, start.
  cbv beta iota zeta delta [bind ret modify get raise print fst snd].
  destruct (for_each lines (loop_body v) _) as [[[]|e] s]; reflexivity.
Qed.

Lemma main_verbose fn a_file :
  fst (main true fn a_file) = fst (main false fn a_file) /\
  agree (snd (main true fn a_file)) (snd (main false fn a_file)).
Proof.
  destruct a_file as [lines|e].
  - rewrite !script_opened.
    set (st := start fn).
    assert (Hst : agree st st) by (apply agree_refl; reflexivity).
    destruct (run_verbose lines st st Hst) as [Hr Ha].
    destruct (run true lines st) as [[[]|e] sv],
             (run false lines st) as [[[]|e'] sq];
      cbn [fst snd] in *; try discriminate.
    + destruct sv, sq. destruct Ha as [Hf [D W]]. revert Hf D W. mred.
      intros [= -> -> -> -> -> -> -> -> -> -> ->] D W.
      unfold agree. mred. agree_tac D W.
    + injection Hr as ->. destruct (is_FileNotFoundError e').
      * destruct sv, sq. destruct Ha as [Hf [D W]]. revert Hf D W. mred.
        intros [= -> -> -> -> -> -> -> -> -> -> ->] D W.
        unfold agree. mred. agree_tac D W.
      * split; [reflexivity | exact Ha].
  - split; [reflexivity|]. apply agree_refl.
    destruct e; reflexivity.
Qed.

(** C10. For every input file, also one that cannot be opened, the verbose
    run and the quiet run end with the same exit status, the same node,
    error and warning counts and the same WARNING and ERROR lines; the quiet
    console is the verbose one without its informational lines. *)
Theorem verbose_flag_only_adds_information (node_filename : string)
  (a_file : open_result) :
  let rv := main true node_filename a_file in
  let rq := main false node_filename a_file in
  exit_status (fst rv) = exit_status (fst rq) /\
  node_count (snd rv) = node_count (snd rq) /\
  errors (snd rv) = errors (snd rq) /\
  warnings (snd rv) = warnings (snd rq) /\
  diagnostics (stdout (snd rv)) = diagnostics (stdout (snd rq)) /\
  stdout (snd rq) = without_info (stdout (snd rv)).
Proof.
  cbv zeta.
  destruct (main_verbose node_filename a_file) as [Hr [Hf [D W]]].
  rewrite Hr, Hf.
  destruct (snd (main true node_filename a_file)).
  repeat split; try reflexivity; assumption.
Qed.

(** ** Record starts, counters and the exit status *)

Lemma begin_node_line x e0 sep e2 :
  partition_space x = (e0, sep, e2) ->
  ("begin" =? e0)%string = true -> ("node" =? e2)%string = true ->
  x = "begin node".
Proof.
  intros Hp H0 H2. apply String.eqb_eq in H0, H2. subst e0 e2.
  destruct (partition_space_eq _ _ _ _ Hp) as [-> [-> | [_ [=]]]].
  reflexivity.
Qed.

Lemma end_node_line x e0 sep e2 :
  partition_space x = (e0, sep, e2) ->
  ("end" =? e0)%string = true -> ("node" =? e2)%string = true ->
  x = "end node".
Proof.
  intros Hp H0 H2. apply String.eqb_eq in H0, H2. subst e0 e2.
  destruct (partition_space_eq _ _ _ _ Hp) as [-> [-> | [_ [=]]]].
  reflexivity.
Qed.

Lemma loop_body_begin v line s :
  strip line = "begin node" ->
  loop_body v line s =
  (Ok tt,
   let s1 :=
     set_node_start_line (Some (str (line_number s + 1)))
       (set_node_count (node_count s + 1)
          (set_line_number (line_number s + 1) s)) in
   if v
   then snd (print ("New node starting at line " +:+ str (line_number s + 1))
               s1)
   else s1).
Proof.
  intros H. unfold loop_body. rewrite H.
  change (partition_space "begin node") with ("begin", " ", "node").
  destruct s. mcases; reflexivity.
Qed.

Lemma loop_body_not_begin v line s :
  strip line <> "begin node" ->
  node_count (snd (loop_body v line s)) = node_count s /\
  (node_start_line (snd (loop_body v line s)) = node_start_line s \/
   node_start_line (snd (loop_body v line s)) = None).
Proof.
  intros NE. unfold loop_body.
  destruct (partition_space (strip line)) as [[e0 sep] e2] eqn:Hp.
  destruct s. mcases.
  all: try (exfalso; apply NE; eapply begin_node_line; eassumption).
  all: split; [reflexivity | auto].
Qed.

(** C6 (amended). A line is counted as a record start exactly when, once
    stripped of its surrounding whitespace, it is the string "begin node":
    the keyword [begin], one space and the remainder [node] and nothing else.
    Then the node count grows by one and the start line becomes the number of
    the line; on every other line the node count is unchanged and the start
    line is unchanged or cleared. *)
Theorem record_start_exactly_begin_node (v : bool) (line : string)
  (s : state) :
  let r := loop_body v line s in
  (strip line = "begin node" /\
   fst r = Ok tt /\
   node_count (snd r) = node_count s + 1 /\
   line_number (snd r) = line_number s + 1 /\
   node_start_line (snd r) = Some (str (line_number s + 1)))
  \/
  (strip line <> "begin node" /\
   node_count (snd r) = node_count s /\
   (node_start_line (snd r) = node_start_line s \/
    node_start_line (snd r) = None)).
Proof.
  cbv zeta. destruct (String.eqb_spec (strip line) "begin node") as [E|NE].
  - left. rewrite (loop_body_begin v line s E).
    destruct s, v; repeat split; assumption.
  - right. split; [exact NE | apply loop_body_not_begin, NE].
Qed.

Lemma no_start_step v line s :
  strip line <> "begin node" ->
  node_count s = 0 -> warnings s = 0 -> errors s = 0 ->
  node_start_line s = None ->
  fst (loop_body v line s) = Ok tt ->
  node_count (snd (loop_body v line s)) = 0 /\
  warnings (snd (loop_body v line s)) = 0 /\
  errors (snd (loop_body v line s)) = 0 /\
  node_start_line (snd (loop_body v line s)) = None.
Proof.
  intros NE. destruct s. mred. intros -> -> -> ->.
  unfold loop_body.
  destruct (partition_space (strip line)) as [[e0 sep] e2] eqn:Hp.
  mcases.
  all: try (exfalso; apply NE; eapply begin_node_line; eassumption).
  all: try discriminate.
  all: intros _; repeat split; reflexivity.
Qed.

Lemma no_start_run v lines s :
  Forall (fun l => strip l <> "begin node") lines ->
  node_count s = 0 -> warnings s = 0 -> errors s = 0 ->
  node_start_line s = None ->
  fst (run v lines s) = Ok tt ->
  node_count (snd (run v lines s)) = 0 /\
  warnings (snd (run v lines s)) = 0 /\
  errors (snd (run v lines s)) = 0 /\
  node_start_line (snd (run v lines s)) = None.
Proof.
  intros HF. revert s.
  induction HF as [|l lines Hl HF IH]; intros s Hn Hw He Hs.
  - intros _. auto.
  - rewrite run_cons.
    pose proof (no_start_step v l s Hl Hn Hw He Hs) as Hstep.
    destruct (loop_body v l s) as [[[]|e] s']; cbn [fst snd] in *.
    + destruct (Hstep eq_refl) as (? & ? & ? & ?). apply IH; assumption.
    + discriminate.
Qed.
(** C3. When the scan reaches the end of the file, the exit status is 1 if
    the error counter is positive and 0 otherwise, whatever the warning
    counter is; the counters of the final state are those of the scan. *)
Theorem exit_status_follows_error_count (v : bool) (node_filename : string)
  (lines : list string) :
  reaches_eof v node_filename lines ->
  let r := main v node_filename (Opened lines) in
  exit_status (fst r) = (if 0 <? errors (snd r) then 1%Z else 0%Z) /\
  (errors (snd r) = 0 -> exit_status (fst r) = 0%Z) /\
  (0 < errors (snd r) -> exit_status (fst r) = 1%Z) /\
  errors (snd r) = errors (snd (run v lines (start node_filename))) /\
  warnings (snd r) = warnings (snd (run v lines (start node_filename))).
Proof.
  unfold reaches_eof. intros H. cbv zeta. rewrite script_opened.
  destruct (run v lines (start node_filename)) as [[[]|e] s];
    cbn [fst] in H; [|discriminate].
  destruct s. unfold exit_status. mred.
  repeat split.
  - intros ->. reflexivity.
  - intros Hpos. apply N.ltb_lt in Hpos. rewrite Hpos. reflexivity.
Qed.

Lemma exit_status_follows_error_count_witness :
  exit_status
    (fst (main false "nodes"
            (Opened ["begin node"; "name a"; "end node";
                     "begin node"; "name a"; "end node"]))) = 1%Z.
Proof.
  assert (E : reaches_eof false "nodes"
                ["begin node"; "name a"; "end node";
                 "begin node"; "name a"; "end node"])
    by (vm_compute; reflexivity).
  apply (exit_status_follows_error_count false "nodes" _ E).
  vm_compute. reflexivity.
Defined.

(** C7 (amended). When no line of the file is a record start and the scan
    reaches the end of the file, the run ends with a node count, an error
    count and a warning count of 0 and with exit status 0; its last line is
    the summary of the literal format. The empty file prints the banner and
    the summary "Finished. 0 nodes, 0 errors0 warnings" and exits with 0. *)
Theorem no_record_start_zero_counts (v : bool) (node_filename : string)
  (lines : list string) :
  Forall (fun l => strip l <> "begin node") lines ->
  reaches_eof v node_filename lines ->
  let r := main v node_filename (Opened lines) in
  node_count (snd r) = 0 /\ errors (snd r) = 0 /\ warnings (snd r) = 0 /\
  fst r = Raise (SystemExit 0) /\ exit_status (fst r) = 0%Z /\
  (exists out,
     stdout (snd r) =
     (out ++ ["Finished. 0 nodes, 0 errors0 warnings"])%list) /\
  main v node_filename (Opened []) =
  (Raise (SystemExit 0),
   set_stdout ["Checking node file " +:+ node_filename;
               "Finished. 0 nodes, 0 errors0 warnings"] initial).
Proof.
  unfold reaches_eof. intros HF H. cbv zeta.
  assert (Hinv := no_start_run v lines (start node_filename) HF
                    eq_refl eq_refl eq_refl eq_refl H).
  rewrite script_opened.
  destruct (run v lines (start node_filename)) as [[[]|e] s];
    cbn [fst] in H; [|discriminate].
  destruct s. revert Hinv. mred. intros (-> & -> & -> & ->).
  repeat split. eexists. reflexivity.
Qed.

Lemma no_record_start_zero_counts_witness :
  errors
    (snd (main true "nodes"
            (Opened ["name a"; "end node"; "address 10.0.0.1"; "id 4"])))
  = 0.
Proof.
  assert (F : Forall (fun l => strip l <> "begin node")
                ["name a"; "end node"; "address 10.0.0.1"; "id 4"])
    by (repeat constructor; vm_compute; discriminate).
  assert (E : reaches_eof true "nodes"
                ["name a"; "end node"; "address 10.0.0.1"; "id 4"])
    by (vm_compute; reflexivity).
  apply (no_record_start_zero_counts true "nodes" _ F E).
Defined.

(** ** The end of a record *)

Lemma loop_body_end v line s :
  strip line = "end node" ->
  loop_body v line s =
  let s1 := set_line_number (line_number s + 1) s in
  let close s2 :=
    set_node_id None
      (set_node_start_line None
         (set_stdout
            (stdout s2 ++
             info_line v ("  ends at line " +:+ str (line_number s + 1)))
            s2)) in
  if bool_decide (0 < size (nodeid_to_line s))%nat
     && bool_decide (node_id s = None)
  then
    match node_name s, node_start_line s with
    | Some n, Some l =>
        (Ok tt,
         close (snd (print (missing_id_warning n l)
                       (set_warnings (warnings s + 1) s1))))
    | _, _ => (Raise TypeError, set_warnings (warnings s + 1) s1)
    end
  else (Ok tt, close s1).
Proof.
  intros H. unfold loop_body. rewrite H.
  change (partition_space "end node") with ("end", " ", "node").
  destruct s. unfold info_line, missing_id_warning. mcases.
  all: rewrite ?app_nil_r, ?string_app_assoc; reflexivity.
Qed.

Lemma keyword_kept_name v line s :
  keyword line <> "name" ->
  node_name (snd (loop_body v line s)) = node_name s.
Proof.
  unfold keyword, loop_body.
  destruct (partition_space (strip line)) as [[e0 sep] e2]. intros NE.
  destruct s. mcases; try reflexivity.
  all: exfalso; apply NE; symmetry; apply String.eqb_eq; assumption.
Qed.

Lemma keyword_kept_address v line s :
  keyword line <> "address" ->
  address (snd (loop_body v line s)) = address s.
Proof.
  unfold keyword, loop_body.
  destruct (partition_space (strip line)) as [[e0 sep] e2]. intros NE.
  destruct s. mcases; try reflexivity.
  all: exfalso; apply NE; symmetry; apply String.eqb_eq; assumption.
Qed.

Lemma end_keyword_other_is_skipped v line s :
  keyword line = "end" -> strip line <> "end node" ->
  loop_body v line s = (Ok tt, set_line_number (line_number s + 1) s).
Proof.
  unfold keyword, loop_body.
  destruct (partition_space (strip line)) as [[e0 sep] e2] eqn:Hp.
  intros -> NE.
  destruct s as [nc w er nid nn nsl ad n2l i2n id2l ln out].
  mcases; try reflexivity.
  all: exfalso; apply NE; eapply end_node_line;
       [exact Hp | reflexivity | assumption].
Qed.

(** C9 (amended). A line that is, once stripped, exactly "end node" leaves
    the name and the address of the active record, the three registries, the
    node count and the error count as they are; when it is processed to its
    end it sets the identifier and the start line to [None], and it is
    processed to its end unless the missing id warning meets a name or a
    start line that is [None]. The name and the address then stay until a
    line with the keyword [name], respectively [address], assigns them. A
    line with the keyword [end] that is not exactly "end node", such as
    "end node extra" or "end  node", is no record end: it clears nothing and
    changes the line number only. *)
Theorem record_end_clears_id_and_start_line_only (v : bool) (line : string)
  (s : state) :
  strip line = "end node" ->
  let r := loop_body v line s in
  node_name (snd r) = node_name s /\
  address (snd r) = address s /\
  nodename_to_line (snd r) = nodename_to_line s /\
  ipaddr_to_nodename (snd r) = ipaddr_to_nodename s /\
  nodeid_to_line (snd r) = nodeid_to_line s /\
  node_count (snd r) = node_count s /\
  errors (snd r) = errors s /\
  (fst r = Ok tt -> node_id (snd r) = None /\ node_start_line (snd r) = None) /\
  (nodeid_to_line s = ∅ \/ node_id s <> None \/
   (node_name s <> None /\ node_start_line s <> None) -> fst r = Ok tt) /\
  (forall v' l' s', keyword l' <> "name" ->
     node_name (snd (loop_body v' l' s')) = node_name s') /\
  (forall v' l' s', keyword l' <> "address" ->
     address (snd (loop_body v' l' s')) = address s') /\
  (forall v' l' s', keyword l' = "end" -> strip l' <> "end node" ->
     loop_body v' l' s' =
     (Ok tt, set_line_number (line_number s' + 1) s')).
Proof.
  intros H. cbv zeta. rewrite (loop_body_end v line s H).
  split; [|split; [|split; [|split; [|split; [|split; [|split; [|split;
    [|split; [|split; [|split]]]]]]]]]].
  10: exact keyword_kept_name.
  10: exact keyword_kept_address.
  10: exact end_keyword_other_is_skipped.
  all: destruct s as [nc w er nid nn nsl ad n2l i2n id2l ln out]; mred.
  all: destruct (bool_decide (0 < size id2l)%nat) eqn:Hsz;
       destruct (bool_decide (nid = None)) eqn:Hid; mred;
       destruct nn, nsl; mred;
       try reflexivity; try discriminate; auto.
  all: intros [-> | [Hn | [Hn Hl]]]; try congruence.
  all: try (rewrite empty_size in Hsz; discriminate).
  all: apply bool_decide_eq_true in Hid; congruence.
Qed.

Lemma record_end_clears_id_and_start_line_only_witness :
  node_name
    (snd (loop_body false " end node"
            (snd (run false ["begin node"; "id 3"; "name moose"] initial))))
  = Some "moose".
Proof.
  assert (H : strip " end node" = "end node") by reflexivity.
  rewrite (proj1 (record_end_clears_id_and_start_line_only false " end node"
                    (snd (run false ["begin node"; "id 3"; "name moose"]
                            initial)) H)).
  vm_compute. reflexivity.
Defined.

(** ** The missing id warning *)

Lemma id_line_fills v line s :
  keyword line = "id" ->
  exists k x, nodeid_to_line (snd (loop_body v line s)) !! k = Some x.
Proof.
  unfold keyword, loop_body.
  destruct (partition_space (strip line)) as [[e0 sep] e2]. intros ->.
  destruct s as [nc w er nid nn nsl ad n2l i2n id2l ln out]. mcases.
  all: first
    [ eexists _, _; apply lookup_insert_eq
    | match goal with
      | H : contains _ _ = true |- _ =>
          apply contains_true in H; destruct H; eauto
      end ].
Qed.

Lemma non_id_keeps_none v line s :
  keyword line <> "id" -> node_id s = None ->
  node_id (snd (loop_body v line s)) = None.
Proof.
  unfold keyword, loop_body.
  destruct (partition_space (strip line)) as [[e0 sep] e2]. intros NE.
  destruct s as [nc w er nid nn nsl ad n2l i2n id2l ln out]. mred.
  intros ->. mcases; try reflexivity.
  all: exfalso; apply NE; symmetry; apply String.eqb_eq; assumption.
Qed.

Lemma non_id_keeps_registry v line s :
  keyword line <> "id" ->
  nodeid_to_line (snd (loop_body v line s)) = nodeid_to_line s.
Proof.
  unfold keyword, loop_body.
  destruct (partition_space (strip line)) as [[e0 sep] e2]. intros NE.
  destruct s as [nc w er nid nn nsl ad n2l i2n id2l ln out].
  mcases; try reflexivity.
  all: exfalso; apply NE; symmetry; apply String.eqb_eq; assumption.
Qed.

Lemma run_non_id_keeps_none v lines s :
  Forall (fun l => keyword l <> "id") lines -> node_id s = None ->
  node_id (snd (run v lines s)) = None.
Proof.
  intros HF. revert s. induction HF as [|l lines Hl HF IH]; intros s Hs.
  - exact Hs.
  - rewrite run_cons. pose proof (non_id_keeps_none v l s Hl Hs) as Hn.
    destruct (loop_body v l s) as [[[]|e] s']; cbn [snd] in *; auto.
Qed.

Lemma run_non_id_keeps_registry v lines s :
  Forall (fun l => keyword l <> "id") lines ->
  nodeid_to_line (snd (run v lines s)) = nodeid_to_line s.
Proof.
  intros HF. revert s. induction HF as [|l lines Hl HF IH]; intros s.
  - reflexivity.
  - rewrite run_cons. pose proof (non_id_keeps_registry v l s Hl) as Hn.
    destruct (loop_body v l s) as [[[]|e] s']; cbn [snd] in *; auto.
    rewrite IH. exact Hn.
Qed.

Lemma run_id_fills v lines s :
  Exists (fun l => keyword l = "id") lines ->
  fst (run v lines s) = Ok tt ->
  exists k x, nodeid_to_line (snd (run v lines s)) !! k = Some x.
Proof.
  intros HE. revert s. induction HE as [l lines Hl | l lines HE IH]; intros s.
  - rewrite run_cons. destruct (id_line_fills v l s Hl) as (k & x & Hk).
    destruct (loop_body v l s) as [[[]|e] s']; cbn [fst snd] in *;
      [|discriminate].
    intros _. exists k, x.
    apply (run_keeps_entries IdRegistry v lines s' k x Hk).
  - rewrite run_cons.
    destruct (loop_body v l s) as [[[]|e] s']; cbn [fst snd] in *;
      [apply IH | discriminate].
Qed.

Lemma end_clears_id v line s :
  strip line = "end node" -> fst (loop_body v line s) = Ok tt ->
  node_id (snd (loop_body v line s)) = None.
Proof.
  intros H. rewrite (loop_body_end v line s H).
  destruct s as [nc w er nid nn nsl ad n2l i2n id2l ln out]. mred.
  destruct (bool_decide (0 < size id2l)%nat), (bool_decide (nid = None));
    mred; try reflexivity.
  destruct nn, nsl; mred; try reflexivity; discriminate.
Qed.

Lemma id_line_sets_id v line s :
  keyword line = "id" ->
  node_id (snd (loop_body v line s)) = Some (value line).
Proof.
  unfold keyword, value, loop_body.
  destruct (partition_space (strip line)) as [[e0 sep] e2]. intros ->.
  destruct s as [nc w er nid nn nsl ad n2l i2n id2l ln out].
  mcases; reflexivity.
Qed.

Lemma non_end_keeps_id v line s :
  strip line <> "end node" -> node_id s <> None ->
  node_id (snd (loop_body v line s)) <> None.
Proof.
  intros NE. unfold loop_body.
  destruct (partition_space (strip line)) as [[e0 sep] e2] eqn:Hp.
  destruct s as [nc w er nid nn nsl ad n2l i2n id2l ln out]. mred.
  intros Hid. mcases; try exact Hid; try discriminate.
  all: exfalso; apply NE; eapply end_node_line; eassumption.
Qed.

Lemma run_non_end_keeps_id v lines s :
  Forall (fun l => strip l <> "end node") lines -> node_id s <> None ->
  node_id (snd (run v lines s)) <> None.
Proof.
  intros HF. revert s. induction HF as [|l lines Hl HF IH]; intros s Hs.
  - exact Hs.
  - rewrite run_cons. pose proof (non_end_keeps_id v l s Hl Hs) as Hn.
    destruct (loop_body v l s) as [[[]|e] s']; cbn [snd] in *; auto.
Qed.

Lemma end_line_without_warning v fin s :
  strip fin = "end node" ->
  nodeid_to_line s = ∅ \/ node_id s <> None ->
  fst (loop_body v fin s) = Ok tt /\
  warnings (snd (loop_body v fin s)) = warnings s /\
  stdout (snd (loop_body v fin s)) =
  (stdout s ++
   info_line v ("  ends at line " +:+ str (line_number s + 1)))%list.
Proof.
  intros Hfin H. rewrite (loop_body_end v fin s Hfin).
  destruct s as [nc w er nid nn nsl ad n2l i2n id2l ln out].
  revert H. mred. intros [-> | Hid].
  - rewrite empty_size. mred. repeat split.
  - rewrite (bool_decide_eq_false_2 (nid = None) Hid).
    destruct (bool_decide (0 < size id2l)%nat); mred; repeat split.
Qed.

(** C1 (amended). Whether an "end node" line prints the "missing id"
    WARNING depends on the [id] lines read so far and on the last earlier
    "end node" line. If an earlier "end node" line has an [id] line
    somewhere before it and no [id] line after it, the lines up to here are
    processed without an exception, and the active name and start line are
    set, then this "end node" line prints exactly one "missing id" WARNING
    with that name and start line, and the warning counter grows by one. If
    no [id] line has been read at all, as for the records before the first
    record with an identifier, it prints no warning. If an [id] line has been
    read with no "end node" line after it, be it an [id] line outside of any
    record, it prints no warning either. *)
Theorem missing_id_warning_needs_an_earlier_id (v : bool) (fin : string) :
  strip fin = "end node" ->
  (forall pre e body s0 s n l,
     Exists (fun x => keyword x = "id") pre ->
     strip e = "end node" ->
     Forall (fun x => keyword x <> "id") body ->
     run v (pre ++ [e] ++ body) s0 = (Ok tt, s) ->
     node_name s = Some n -> node_start_line s = Some l ->
     let r := loop_body v fin s in
     fst r = Ok tt /\
     warnings (snd r) = warnings s + 1 /\
     errors (snd r) = errors s /\
     stdout (snd r) =
     (stdout s ++ [missing_id_warning n l] ++
      info_line v ("  ends at line " +:+ str (line_number s + 1)))%list)
  /\
  (forall lines s0 s,
     nodeid_to_line s0 = ∅ ->
     Forall (fun x => keyword x <> "id") lines ->
     run v lines s0 = (Ok tt, s) ->
     let r := loop_body v fin s in
     fst r = Ok tt /\
     warnings (snd r) = warnings s /\
     stdout (snd r) =
     (stdout s ++
      info_line v ("  ends at line " +:+ str (line_number s + 1)))%list)
  /\
  (forall pre i body s0 s,
     keyword i = "id" ->
     Forall (fun x => strip x <> "end node") body ->
     run v (pre ++ [i] ++ body) s0 = (Ok tt, s) ->
     let r := loop_body v fin s in
     fst r = Ok tt /\
     warnings (snd r) = warnings s /\
     stdout (snd r) =
     (stdout s ++
      info_line v ("  ends at line " +:+ str (line_number s + 1)))%list).
Proof.
  intros Hfin. split; [|split].
  - intros pre e body s0 s n l Hpre He Hbody Hrun Hn Hl. cbv zeta.
    rewrite run_app in Hrun.
    pose proof (run_id_fills v pre s0 Hpre) as Hfill.
    destruct (run v pre s0) as [[[]|x] s1]; [|discriminate].
    destruct (Hfill eq_refl) as (k & y & Hk). cbn [snd] in Hk.
    rewrite run_app in Hrun.
    change (run v [e] s1) with
      (match loop_body v e s1 with
       | (Ok _, s') => (Ok tt, s')
       | (Raise x, s') => (Raise x, s')
       end) in Hrun.
    pose proof (end_clears_id v e s1 He) as Hclr.
    pose proof (loop_body_keeps_entries IdRegistry v e s1 k y Hk) as Hk2.
    destruct (loop_body v e s1) as [[[]|x] s2]; [|discriminate].
    cbn [fst snd] in Hclr, Hk2. specialize (Hclr eq_refl).
    pose proof (run_non_id_keeps_none v body s2 Hbody Hclr) as Hnone.
    pose proof (run_keeps_entries IdRegistry v body s2 k y Hk2) as Hk3.
    rewrite Hrun in Hnone, Hk3. cbn [snd table] in Hnone, Hk3.
    rewrite (loop_body_end v fin s Hfin).
    destruct s as [nc w er nid nn nsl ad n2l i2n id2l ln out].
    revert Hnone Hk3 Hn Hl. mred. intros -> Hk3 -> ->.
    rewrite (nonempty_size _ _ _ Hk3).
    rewrite bool_decide_eq_true_2 by reflexivity. mred.
    repeat split. rewrite <- app_assoc. reflexivity.
  - intros lines s0 s Hempty Hlines Hrun. cbv zeta.
    pose proof (run_non_id_keeps_registry v lines s0 Hlines) as Hreg.
    rewrite Hrun, Hempty in Hreg. cbn [snd] in Hreg.
    apply (end_line_without_warning v fin s Hfin). left. exact Hreg.
  - intros pre i body s0 s Hi Hbody Hrun. cbv zeta.
    rewrite run_app in Hrun.
    destruct (run v pre s0) as [[[]|x] s1]; [|discriminate].
    rewrite run_app in Hrun.
    change (run v [i] s1) with
      (match loop_body v i s1 with
       | (Ok _, s') => (Ok tt, s')
       | (Raise x, s') => (Raise x, s')
       end) in Hrun.
    pose proof (id_line_sets_id v i s1 Hi) as Hset.
    destruct (loop_body v i s1) as [[[]|x] s2]; [|discriminate].
    cbn [snd] in Hset.
    assert (Hsome : node_id s2 <> None) by (rewrite Hset; discriminate).
    pose proof (run_non_end_keeps_id v body s2 Hbody Hsome) as Hkeep.
    rewrite Hrun in Hkeep. cbn [snd] in Hkeep.
    apply (end_line_without_warning v fin s Hfin). right. exact Hkeep.
Qed.

Lemma missing_id_warning_needs_an_earlier_id_witness :
  warnings
    (snd (loop_body false "end node"
            (snd (run false
                    (["begin node"; "id 1"; "name a"] ++ ["end node"] ++
                     ["begin node"; "name b"]) initial)))) = 1.
Proof.
  assert (Hfin : strip "end node" = "end node") by reflexivity.
  assert (Hpre : Exists (fun x => keyword x = "id")
                   ["begin node"; "id 1"; "name a"])
    by (apply Exists_cons_tl, Exists_cons_hd; reflexivity).
  assert (Hbody : Forall (fun x => keyword x <> "id")
                    ["begin node"; "name b"])
    by (repeat constructor; vm_compute; discriminate).
  assert (Hrun : run false
                   (["begin node"; "id 1"; "name a"] ++ ["end node"] ++
                    ["begin node"; "name b"]) initial =
                 (Ok tt,
                  snd (run false
                         (["begin node"; "id 1"; "name a"] ++ ["end node"] ++
                          ["begin node"; "name b"]) initial)))
    by (vm_compute; reflexivity).
  apply (proj1 (missing_id_warning_needs_an_earlier_id false "end node" Hfin)
           _ _ _ _ _ "b" "5" Hpre Hfin Hbody Hrun);
    vm_compute; reflexivity.
Defined.

Lemma contains_lookup (d : gmap string (option string)) k x :
  d !! k = Some x -> contains d k = true.
Proof. intros H. unfold contains. apply bool_decide_eq_true. eauto. Qed.


(** ** Concrete runs *)


(** The bare line "address": its value is the empty string, which is
    registered and warned about like any other. *)
Lemma bare_address_line_is_warned :
  diagnostics
    (stdout
       (snd (run false
               ["begin node"; "name a"; "address"; "end node";
                "begin node"; "name b"; "address"; "end node"] initial))) =
  [shared_address_warning "b" "5" "a" "1" ""].
Proof. vm_compute. reflexivity. Qed.

(** C1, counterexample. The second record has an [id] line, the first has
    none; the first record ends while the registry is empty and no warning
    is printed for it. *)
Lemma record_before_the_first_id_is_not_warned :
  let file := ["begin node"; "name a"; "end node";
               "begin node"; "id 1"; "name b"; "end node"] in
  let r := main false "nodes" (Opened file) in
  Exists (fun x => keyword x = "id") file /\
  fst r = Raise (SystemExit 0) /\
  warnings (snd r) = 0 /\
  stdout (snd r) =
  ["Checking node file nodes"; "Finished. 2 nodes, 0 errors0 warnings"].
Proof.
  cbv zeta. split.
  - do 4 apply Exists_cons_tl. apply Exists_cons_hd. reflexivity.
  - vm_compute. repeat split.
Qed.

(** C9, counterexample. In "end node extra" and in "end<TAB>node" the
    first token is [end] and the next one is [node]: they are record ends in
    the words of the claim. The script compares the whole rest of the line
    with [node], takes neither for a record end and clears neither the
    identifier nor the start line of the open record. *)
Lemma end_with_extra_token_clears_nothing :
  let tabbed := "end" +:+ String "009"%char "node" in
  let s := snd (run false ["begin node"; "id 1"] initial) in
  node_id s = Some "1" /\ node_start_line s = Some "1" /\
  (Spec.record_end "end node extra" = true /\
   node_id (snd (loop_body false "end node extra" s)) = Some "1" /\
   node_start_line (snd (loop_body false "end node extra" s)) = Some "1")
  /\
  (Spec.record_end tabbed = true /\
   node_id (snd (loop_body false tabbed s)) = Some "1" /\
   node_start_line (snd (loop_body false tabbed s)) = Some "1").
Proof. vm_compute. repeat split. Qed.

(** An [id] line outside of any record, after the last "end node" line:
    the next record has no [id] line and is not warned about. *)
Lemma stray_id_line_suppresses_the_warning :
  let r := main false "nodes"
             (Opened ["begin node"; "id 1"; "name a"; "end node"; "id 2";
                      "begin node"; "name b"; "end node"]) in
  fst r = Raise (SystemExit 0) /\ warnings (snd r) = 0 /\
  stdout (snd r) =
  ["Checking node file nodes"; "Finished. 2 nodes, 0 errors0 warnings"].
Proof. vm_compute. repeat split. Qed.

(** C2. A record without a name that ends in a file that uses identifiers:
    the print of the missing id warning adds [None] to a string, the
    [TypeError] is caught by nothing and the run stops with a traceback and
    status 1, before any diagnostic or summary. Two unnamed records that
    share an address stop the run with a [KeyError] in the same way. *)
Theorem diagnostic_of_unnamed_record_raises :
  let r1 := main false "nodes"
              (Opened ["begin node"; "id 1"; "end node";
                       "begin node"; "end node"]) in
  let r2 := main false "nodes"
              (Opened ["begin node"; "address 10.0.0.1"; "end node";
                       "begin node"; "address 10.0.0.1"; "end node"]) in
  (fst r1 = Raise TypeError /\ exit_status (fst r1) = 1%Z /\
   line_number (snd r1) = 5 /\
   stdout (snd r1) = ["Checking node file nodes"]) /\
  (fst r2 = Raise KeyError /\ exit_status (fst r2) = 1%Z /\
   line_number (snd r2) = 5 /\
   stdout (snd r2) = ["Checking node file nodes"]).
Proof. vm_compute. repeat split. Qed.

(** The path that does not exist: the handler prints the fatal message and
    exits with 2, without a summary. *)
Lemma missing_file_is_fatal v fn :
  main v fn (OpenError FileNotFoundError) =
  (Raise (SystemExit 2),
   set_stdout ["Checking node file " +:+ fn;
               "    Cannot access file " +:+ fn] initial).
Proof. reflexivity. Qed.

(** C4. A file that exists and that the user may not read, or a directory:
    [open] raises [PermissionError] or [IsADirectoryError], the handler of
    [FileNotFoundError] does not catch them, and the run ends with a
    traceback and status 1, without the message "Cannot access file". *)
Theorem unreadable_file_is_not_caught (v : bool) (node_filename : string) :
  let r1 := main v node_filename (OpenError PermissionError) in
  let r2 := main v node_filename (OpenError IsADirectoryError) in
  (fst r1 = Raise PermissionError /\ exit_status (fst r1) = 1%Z /\
   stdout (snd r1) = ["Checking node file " +:+ node_filename]) /\
  (fst r2 = Raise IsADirectoryError /\ exit_status (fst r2) = 1%Z /\
   stdout (snd r2) = ["Checking node file " +:+ node_filename]).
Proof. repeat split. Qed.

(** C6, counterexample. In "begin node extra" and in "begin<TAB>node" the
    first token is [begin] and the next one is [node]; the script counts
    neither as a record start. *)
Lemma extra_token_or_tab_is_no_record_start :
  let tabbed := "begin" +:+ String "009"%char "node" in
  (Spec.record_start "begin node extra" = true /\
   node_count (snd (loop_body false "begin node extra" initial)) = 0 /\
   node_start_line (snd (loop_body false "begin node extra" initial)) = None)
  /\
  (Spec.record_start tabbed = true /\
   node_count (snd (loop_body false tabbed initial)) = 0 /\
   node_start_line (snd (loop_body false tabbed initial)) = None).
Proof. vm_compute. repeat split. Qed.

(** C7, counterexample. A record that is started and never ended: the file
    has no [begin node]/[end node] pair, the scan reaches the end of the
    file, and the run ends with one node, one error and status 1. *)
Lemma unfinished_record_is_counted :
  let file := ["begin node"; "name a"; "name a"] in
  let r := main false "nodes" (Opened file) in
  Spec.pairs false file = 0%nat /\
  reaches_eof false "nodes" file /\
  node_count (snd r) = 1 /\ errors (snd r) = 1 /\
  exit_status (fst r) = 1%Z.
Proof. vm_compute. repeat split. Qed.


(** ** Further properties of the scan *)

Lemma rstrip_cons c t :
  isspace c = false -> rstrip (String c t) = String c (rstrip t).
Proof.
  intros Hc. cbn [rstrip]. rewrite Hc. destruct (rstrip t); reflexivity.
Qed.

Lemma rstrip_idem s : rstrip (rstrip s) = rstrip s.
Proof.
  induction s as [|c s IH]; [reflexivity|].
  cbn [rstrip]. destruct (rstrip s) as [|d r] eqn:E.
  - destruct (isspace c) eqn:Hc; [reflexivity|].
    cbn [rstrip]. rewrite Hc. reflexivity.
  - change (rstrip (String c (String d r)))
      with (match rstrip (String d r) with
            | EmptyString =>
                if isspace c then EmptyString else String c EmptyString
            | x => String c x
            end).
    rewrite IH. reflexivity.
Qed.

Lemma lstrip_head s :
  lstrip s = EmptyString \/
  exists c t, lstrip s = String c t /\ isspace c = false.
Proof.
  induction s as [|c s IH]; [left; reflexivity|].
  cbn [lstrip]. destruct (isspace c) eqn:Hc; [exact IH|].
  right. exists c, s. split; [reflexivity | exact Hc].
Qed.

Lemma strip_idem s : strip (strip s) = strip s.
Proof.
  unfold strip. destruct (lstrip_head s) as [-> | (c & t & -> & Hc)].
  - reflexivity.
  - rewrite (rstrip_cons c t Hc). cbn [lstrip]. rewrite Hc.
    rewrite <- (rstrip_cons c t Hc). apply rstrip_idem.
Qed.

(** X1. The whitespace around a line is insignificant: a line and the line
    stripped of its surrounding whitespace are processed alike, in every
    state and in both modes. *)
Theorem surrounding_whitespace_is_insignificant (v : bool) (line : string)
  (s : state) :
  loop_body v (strip line) s = loop_body v line s.
Proof. unfold loop_body. rewrite strip_idem. reflexivity. Qed.

Ltac keyword_contra :=
  exfalso;
  match goal with
  | H : (?k =? ?e)%string = true, N : ?e <> ?k |- _ =>
      apply N; symmetry; apply String.eqb_eq; exact H
  end.

(** X2. A blank line, and a line that is neither "begin node" nor
    "end node" and whose keyword is none of [id], [name] and [address], is
    skipped: it never raises and changes nothing but the line number, which
    grows by one. *)
Theorem other_lines_are_skipped (v : bool) (line : string) (s : state) :
  strip line <> "begin node" -> strip line <> "end node" ->
  keyword line <> "id" -> keyword line <> "name" ->
  keyword line <> "address" ->
  loop_body v line s = (Ok tt, set_line_number (line_number s + 1) s).
Proof.
  unfold keyword, loop_body.
  destruct (partition_space (strip line)) as [[e0 sep] e2] eqn:Hp.
  intros NB NE Nid Nname Naddr.
  destruct s as [nc w er nid nn nsl ad n2l i2n id2l ln out].
  mcases; try reflexivity; try keyword_contra.
  all: exfalso;
    first [ apply NB; eapply begin_node_line; eassumption
          | apply NE; eapply end_node_line; eassumption ].
Qed.

Lemma other_lines_are_skipped_witness :
  loop_body true "  group servers" (snd (run true ["begin node"] initial)) =
  (Ok tt,
   set_line_number 2 (snd (run true ["begin node"] initial))).
Proof.
  apply (other_lines_are_skipped true "  group servers"
           (snd (run true ["begin node"] initial)));
    vm_compute; discriminate.
Defined.

Lemma loop_body_line_number v line s :
  line_number (snd (loop_body v line s)) = line_number s + 1.
Proof.
  unfold loop_body.
  destruct (partition_space (strip line)) as [[e0 sep] e2].
  destruct s as [nc w er nid nn nsl ad n2l i2n id2l ln out].
  mcases; reflexivity.
Qed.

Lemma loop_body_counters_grow v line s :
  node_count s <= node_count (snd (loop_body v line s)) /\
  warnings s <= warnings (snd (loop_body v line s)) /\
  errors s <= errors (snd (loop_body v line s)).
Proof.
  unfold loop_body.
  destruct (partition_space (strip line)) as [[e0 sep] e2].
  destruct s as [nc w er nid nn nsl ad n2l i2n id2l ln out].
  mcases; repeat split; lia.
Qed.

Lemma loop_body_raises v line s e :
  fst (loop_body v line s) = Raise e -> e = TypeError \/ e = KeyError.
Proof.
  unfold loop_body.
  destruct (partition_space (strip line)) as [[e0 sep] e2].
  destruct s as [nc w er nid nn nsl ad n2l i2n id2l ln out].
  mcases; intros [= <-]; auto.
Qed.

Lemma run_counters_grow v lines s :
  node_count s <= node_count (snd (run v lines s)) /\
  warnings s <= warnings (snd (run v lines s)) /\
  errors s <= errors (snd (run v lines s)).
Proof.
  revert s. induction lines as [|l lines IH]; intros s.
  - repeat split; reflexivity.
  - rewrite run_cons.
    pose proof (loop_body_counters_grow v l s) as (Hn & Hw & He).
    destruct (loop_body v l s) as [[[]|e] s']; cbn [snd] in *.
    + destruct (IH s') as (Hn' & Hw' & He'). repeat split; lia.
    + repeat split; assumption.
Qed.

(** X3. The three counters never decrease in the course of a scan, whether
    it reaches the end of the file or stops at an exception. *)
Theorem counters_never_decrease (v : bool) (lines : list string)
  (s : state) :
  node_count s <= node_count (snd (run v lines s)) /\
  warnings s <= warnings (snd (run v lines s)) /\
  errors s <= errors (snd (run v lines s)).
Proof. apply run_counters_grow. Qed.

(** X4. The line number counts every line that is read, the blank and
    the skipped ones included: after a scan that reaches the end of the
    lines it has grown by their number, and at an exception it is the
    number of the line that raised. *)
Theorem line_number_counts_every_line (v : bool) (lines : list string)
  (s : state) :
  (fst (run v lines s) = Ok tt ->
   line_number (snd (run v lines s)) =
   line_number s + N.of_nat (length lines)) /\
  (forall e, fst (run v lines s) = Raise e ->
   exists done line rest,
     lines = (done ++ line :: rest)%list /\
     fst (run v done s) = Ok tt /\
     fst (loop_body v line (snd (run v done s))) = Raise e /\
     line_number (snd (run v lines s)) =
     line_number s + N.of_nat (length done) + 1).
Proof.
  revert s. induction lines as [|l lines IH]; intros s.
  - split; [intros _; cbn; lia | intros e [=]].
  - rewrite run_cons. pose proof (loop_body_line_number v l s) as Hl.
    destruct (loop_body v l s) as [[[]|e] s'] eqn:Hstep; cbn [fst snd] in *.
    + destruct (IH s') as [IHok IHraise]. split.
      * intros H. rewrite (IHok H), Hl. cbn [length]. lia.
      * intros e H.
        destruct (IHraise e H) as (done & line & rest & -> & Hd & Hr & Hn).
        exists (l :: done), line, rest. rewrite !run_cons, Hstep.
        repeat split; try assumption. rewrite Hn, Hl. cbn [length]. lia.
    + split; [intros [=]|]. intros e' [= <-].
      exists [], l, lines. cbn [app length run for_each ret fst snd].
      rewrite Hstep. repeat split. cbn [snd]. lia.
Qed.

Lemma count_begin_cons l lines :
  count_begin (l :: lines) =
  ((if (strip l =? "begin node")%string then 1 else 0) + count_begin lines)%nat.
Proof.
  unfold count_begin. cbn [List.filter].
  destruct (strip l =? "begin node")%string; reflexivity.
Qed.

Lemma run_counts_begin v lines s :
  fst (run v lines s) = Ok tt ->
  node_count (snd (run v lines s)) =
  node_count s + N.of_nat (count_begin lines).
Proof.
  revert s. induction lines as [|l lines IH]; intros s.
  - intros _. cbn. lia.
  - rewrite run_cons, count_begin_cons.
    destruct (String.eqb_spec (strip l) "begin node") as [E|NE].
    + rewrite (loop_body_begin v l s E). intros H. rewrite (IH _ H).
      destruct s, v; cbn; lia.
    + pose proof (loop_body_not_begin v l s NE) as [Hn _].
      destruct (loop_body v l s) as [[[]|e] s']; cbn [fst snd] in *;
        [|intros [=]].
      intros H. rewrite (IH _ H), Hn. lia.
Qed.

(** X5. When the scan reaches the end of the file, the node count of the
    summary is the number of the lines that are, once stripped, exactly
    "begin node"; records need not be ended to be counted. *)
Theorem node_count_is_the_number_of_begin_lines (v : bool)
  (node_filename : string) (lines : list string) :
  reaches_eof v node_filename lines ->
  node_count (snd (main v node_filename (Opened lines))) =
  N.of_nat (count_begin lines).
Proof.
  unfold reaches_eof. intros H. rewrite script_opened.
  pose proof (run_counts_begin v lines (start node_filename) H) as Hc.
  destruct (run v lines (start node_filename)) as [[[]|e] s];
    cbn [fst] in H; [|discriminate].
  cbn [snd] in *. destruct s. revert Hc. mred. intros ->. reflexivity.
Qed.

Lemma node_count_is_the_number_of_begin_lines_witness :
  node_count
    (snd (main false "nodes"
            (Opened ["begin node"; "name a"; ""; " begin node ";
                     "begin  node"; "end node"]))) = 2.
Proof.
  apply (node_count_is_the_number_of_begin_lines false "nodes"
           ["begin node"; "name a"; ""; " begin node ";
            "begin  node"; "end node"]).
  vm_compute. reflexivity.
Defined.

Lemma run_raises v lines s e :
  fst (run v lines s) = Raise e -> e = TypeError \/ e = KeyError.
Proof.
  revert s. induction lines as [|l lines IH]; intros s.
  - intros [=].
  - rewrite run_cons. pose proof (loop_body_raises v l s) as Hl.
    destruct (loop_body v l s) as [[[]|e'] s']; cbn [fst snd] in *.
    + apply IH.
    + intros [= <-]. apply Hl. reflexivity.
Qed.


Lemma line_number_counts_every_line_witness :
  line_number (snd (run false [""; "begin node"; "zone 4"] initial)) = 3.
Proof.
  apply (proj1 (line_number_counts_every_line false
                  [""; "begin node"; "zone 4"] initial)).
  vm_compute. reflexivity.
Defined.

(** X7. An [id] line sets the active identifier to the rest of the line.
    If that value is not yet in the identifier registry, it is registered
    with the active start line, nothing but the verbose line is printed and
    no counter changes. If it is registered with a start line and the
    active start line is set, exactly one ERROR of the documented format is
    printed, which cites the first start line and the active one; the error
    counter grows by one and the registry is unchanged. *)
Theorem id_line_registers_or_reports (v : bool) (line : string) (s : state) :
  keyword line = "id" ->
  let r := loop_body v line s in
  let shown := info_line v ("  id " +:+ value line) in
  (nodeid_to_line s !! value line = None ->
   fst r = Ok tt /\
   node_id (snd r) = Some (value line) /\
   nodeid_to_line (snd r) =
   <[value line := node_start_line s]> (nodeid_to_line s) /\
   errors (snd r) = errors s /\ warnings (snd r) = warnings s /\
   stdout (snd r) = (stdout s ++ shown)%list)
  /\
  (forall first l,
   nodeid_to_line s !! value line = Some (Some first) ->
   node_start_line s = Some l ->
   fst r = Ok tt /\
   node_id (snd r) = Some (value line) /\
   nodeid_to_line (snd r) = nodeid_to_line s /\
   errors (snd r) = errors s + 1 /\ warnings (snd r) = warnings s /\
   stdout (snd r) =
   (stdout s ++ shown ++ [duplicate_id_error first l (value line)])%list).
Proof.
  unfold keyword, value, loop_body.
  destruct (partition_space (strip line)) as [[e0 sep] e2]. intros ->.
  cbv zeta.
  destruct s as [nc w er nid nn nsl ad n2l i2n id2l ln out].
  unfold info_line, duplicate_id_error. split.
  - mred. intros Hk.
    assert (Hc : contains id2l e2 = false)
      by (unfold contains; rewrite Hk; apply bool_decide_eq_false;
          intros [? [=]]).
    destruct v;
      repeat (first [rewrite Hc | rewrite Hk | mcase]; mred);
      rewrite ?app_nil_r; repeat split.
  - mred. intros first l Hk ->.
    pose proof (contains_lookup _ _ _ Hk) as Hc.
    destruct v;
      repeat (first [rewrite Hc | rewrite Hk | mcase]; mred);
      rewrite ?app_nil_r, ?string_app_assoc, <- ?app_assoc;
      repeat split.
Qed.

Lemma id_line_registers_or_reports_witness :
  stdout
    (snd (loop_body false "  id 10"
            (snd (run false ["begin node"; "id 10"; "end node"; "begin node"]
                    initial)))) =
  [duplicate_id_error "1" "4" "10"].
Proof.
  assert (K : keyword "  id 10" = "id") by reflexivity.
  destruct (proj2 (id_line_registers_or_reports false "  id 10"
                     (snd (run false
                             ["begin node"; "id 10"; "end node"; "begin node"]
                             initial)) K) "1" "4")
    as (_ & _ & _ & _ & _ & H);
    [vm_compute; reflexivity | vm_compute; reflexivity |].
  rewrite H. vm_compute. reflexivity.
Defined.

(** X8. A [name] line sets the active name to the rest of the line. If
    that value is not yet in the name registry, it is registered with the
    active start line, nothing but the verbose line is printed and no
    counter changes. If it is registered with a start line and the active
    start line is set, exactly one ERROR of the documented format is
    printed, which cites the first start line and the active one; the error
    counter grows by one and the registry is unchanged. *)
Theorem name_line_registers_or_reports (v : bool) (line : string)
  (s : state) :
  keyword line = "name" ->
  let r := loop_body v line s in
  let shown := info_line v ("  name " +:+ value line) in
  (nodename_to_line s !! value line = None ->
   fst r = Ok tt /\
   node_name (snd r) = Some (value line) /\
   nodename_to_line (snd r) =
   <[value line := node_start_line s]> (nodename_to_line s) /\
   errors (snd r) = errors s /\ warnings (snd r) = warnings s /\
   stdout (snd r) = (stdout s ++ shown)%list)
  /\
  (forall first l,
   nodename_to_line s !! value line = Some (Some first) ->
   node_start_line s = Some l ->
   fst r = Ok tt /\
   node_name (snd r) = Some (value line) /\
   nodename_to_line (snd r) = nodename_to_line s /\
   errors (snd r) = errors s + 1 /\ warnings (snd r) = warnings s /\
   stdout (snd r) =
   (stdout s ++ shown ++ [duplicate_name_error first l (value line)])%list).
Proof.
  unfold keyword, value, loop_body.
  destruct (partition_space (strip line)) as [[e0 sep] e2]. intros ->.
  cbv zeta.
  destruct s as [nc w er nid nn nsl ad n2l i2n id2l ln out].
  unfold info_line, duplicate_name_error. split.
  - mred. intros Hk.
    assert (Hc : contains n2l e2 = false)
      by (unfold contains; rewrite Hk; apply bool_decide_eq_false;
          intros [? [=]]).
    destruct v;
      repeat (first [rewrite Hc | rewrite Hk | mcase]; mred);
      rewrite ?app_nil_r; repeat split.
  - mred. intros first l Hk ->.
    pose proof (contains_lookup _ _ _ Hk) as Hc.
    destruct v;
      repeat (first [rewrite Hc | rewrite Hk | mcase]; mred);
      rewrite ?app_nil_r, ?string_app_assoc, <- ?app_assoc;
      repeat split.
Qed.

Lemma name_line_registers_or_reports_witness :
  nodename_to_line
    (snd (loop_body true "name moose"
            (snd (run true ["begin node"] initial)))) !! "moose" =
  Some (Some "1").
Proof.
  assert (K : keyword "name moose" = "name") by reflexivity.
  destruct (proj1 (name_line_registers_or_reports true "name moose"
                     (snd (run true ["begin node"] initial)) K))
    as (_ & _ & H & _); [vm_compute; reflexivity |].
  rewrite H. vm_compute. reflexivity.
Defined.

(** The registry of the values of a keyword: of [id] or of [name]. *)
Lemma field_line_registers v a s :
  (keyword a = "id" ->
   exists x, nodeid_to_line (snd (loop_body v a s)) !! value a = Some x) /\
  (keyword a = "name" ->
   exists x, nodename_to_line (snd (loop_body v a s)) !! value a = Some x).
Proof.
  unfold keyword, value, loop_body.
  destruct (partition_space (strip a)) as [[e0 sep] e2].
  destruct s as [nc w er nid nn nsl ad n2l i2n id2l ln out].
  split; intros ->; mcases.
  all: first
    [ eexists; apply lookup_insert_eq
    | match goal with
      | H : contains _ _ = true |- _ =>
          apply contains_true in H; destruct H
      end;
      first [congruence | eexists; reflexivity | eauto] ].
Qed.

Lemma field_line_repeated v b s :
  (keyword b = "id" -> is_Some (nodeid_to_line s !! value b) ->
   errors (snd (loop_body v b s)) = errors s + 1) /\
  (keyword b = "name" -> is_Some (nodename_to_line s !! value b) ->
   errors (snd (loop_body v b s)) = errors s + 1).
Proof.
  unfold keyword, value, loop_body.
  destruct (partition_space (strip b)) as [[e0 sep] e2].
  destruct s as [nc w er nid nn nsl ad n2l i2n id2l ln out].
  split; intros -> [x Hx]; cbn [nodeid_to_line nodename_to_line] in Hx;
    pose proof (contains_lookup _ _ _ Hx) as Hc; mred.
  all: destruct v;
       repeat (first [rewrite Hc | rewrite Hx | mcase]; mred); reflexivity.
Qed.

Lemma run_repeated_value v k l1 a l2 b l3 s :
  k = "id" \/ k = "name" ->
  keyword a = k -> keyword b = k -> value a = value b ->
  fst (run v (l1 ++ a :: l2 ++ b :: l3) s) = Ok tt ->
  errors s < errors (snd (run v (l1 ++ a :: l2 ++ b :: l3) s)).
Proof.
  intros Hk Ha Hb Hv. rewrite run_app.
  pose proof (run_counters_grow v l1 s) as (_ & _ & G1).
  destruct (run v l1 s) as [[[]|e] s1]; [|intros [=]]. cbn [snd] in G1.
  rewrite run_cons.
  pose proof (field_line_registers v a s1) as [Rid Rname].
  pose proof (loop_body_counters_grow v a s1) as (_ & _ & G2).
  destruct (loop_body v a s1) as [[[]|e] s2]; [|intros [=]].
  cbn [snd] in *. rewrite run_app.
  pose proof (run_counters_grow v l2 s2) as (_ & _ & G3).
  pose proof (fun r x => run_keeps_entries r v l2 s2 (value a) x) as K.
  destruct (run v l2 s2) as [[[]|e] s3]; [|intros [=]]. cbn [snd] in *.
  rewrite run_cons.
  pose proof (field_line_repeated v b s3) as [Did Dname].
  assert (G4 : errors (snd (loop_body v b s3)) = errors s3 + 1).
  { rewrite <- Hv in Did, Dname. destruct Hk as [-> | ->].
    - destruct (Rid Ha) as [x Hx]. apply (Did Hb). exists x.
      apply (K IdRegistry x Hx).
    - destruct (Rname Ha) as [x Hx]. apply (Dname Hb). exists x.
      apply (K NameRegistry x Hx). }
  destruct (loop_body v b s3) as [[[]|e] s4]; [|intros [=]]. cbn [snd] in *.
  pose proof (run_counters_grow v l3 s4) as (_ & _ & G5).
  intros _. lia.
Qed.

(** X9. A value that two [id] lines of a file share, or two [name] lines,
    fails the run: when the scan reaches the end of the file, the error
    count is positive and the exit status is 1, whatever the other lines
    are. *)
Theorem repeated_id_or_name_fails_the_run (v : bool) (node_filename k : string)
  (l1 l2 l3 : list string) (a b : string) :
  k = "id" \/ k = "name" ->
  keyword a = k -> keyword b = k -> value a = value b ->
  reaches_eof v node_filename (l1 ++ a :: l2 ++ b :: l3) ->
  let r := main v node_filename (Opened (l1 ++ a :: l2 ++ b :: l3)) in
  0 < errors (snd r) /\ exit_status (fst r) = 1%Z.
Proof.
  unfold reaches_eof. intros Hk Ha Hb Hv H. cbv zeta.
  pose proof (run_repeated_value v k l1 a l2 b l3 (start node_filename)
                Hk Ha Hb Hv H) as Hlt.
  rewrite script_opened.
  destruct (run v (l1 ++ a :: l2 ++ b :: l3) (start node_filename))
    as [[[]|e] s]; cbn [fst] in H; [|discriminate].
  cbn [snd] in Hlt. change (errors (start node_filename)) with 0 in Hlt.
  destruct s as [nc w er nid nn nsl ad n2l i2n id2l ln out].
  revert Hlt. unfold exit_status. mred. intros Hlt.
  assert (E : (0 <? er) = true) by (apply N.ltb_lt; exact Hlt).
  rewrite E. split; [exact Hlt | reflexivity].
Qed.

Lemma repeated_id_or_name_fails_the_run_witness :
  exit_status
    (fst (main false "nodes"
            (Opened (["begin node"] ++ "name a" :: ["end node"; "begin node"]
                     ++ " name a" :: ["end node"])))) = 1%Z.
Proof.
  apply (repeated_id_or_name_fails_the_run false "nodes" "name"
           ["begin node"] ["end node"; "begin node"] ["end node"]
           "name a" " name a");
    first [right; reflexivity | vm_compute; reflexivity].
Defined.

Lemma other_keywords_keep_errors v line s :
  keyword line <> "id" -> keyword line <> "name" ->
  errors (snd (loop_body v line s)) = errors s.
Proof.
  unfold keyword, loop_body.
  destruct (partition_space (strip line)) as [[e0 sep] e2]. intros Nid Nname.
  destruct s as [nc w er nid nn nsl ad n2l i2n id2l ln out].
  mcases; try reflexivity; keyword_contra.
Qed.

Lemma other_keywords_keep_warnings v line s :
  keyword line <> "id" -> keyword line <> "address" ->
  nodeid_to_line s = ∅ ->
  warnings (snd (loop_body v line s)) = warnings s.
Proof.
  unfold keyword, loop_body.
  destruct (partition_space (strip line)) as [[e0 sep] e2]. intros Nid Naddr.
  destruct s as [nc w er nid nn nsl ad n2l i2n id2l ln out]. mred.
  intros ->. mcases; try reflexivity; try keyword_contra.
  all: match goal with
       | H : bool_decide (0 < size ∅)%nat = true |- _ =>
           rewrite empty_size in H; discriminate H
       end.
Qed.

Lemma run_other_keywords_keep_errors v lines s :
  Forall (fun l => keyword l <> "id" /\ keyword l <> "name") lines ->
  errors (snd (run v lines s)) = errors s.
Proof.
  intros HF. revert s. induction HF as [|l lines [H1 H2] HF IH]; intros s.
  - reflexivity.
  - rewrite run_cons. pose proof (other_keywords_keep_errors v l s H1 H2) as E.
    destruct (loop_body v l s) as [[[]|e] s']; cbn [snd] in *;
      [rewrite IH|]; exact E.
Qed.

Lemma run_other_keywords_keep_warnings v lines s :
  Forall (fun l => keyword l <> "id" /\ keyword l <> "address") lines ->
  nodeid_to_line s = ∅ ->
  warnings (snd (run v lines s)) = warnings s.
Proof.
  intros HF. revert s. induction HF as [|l lines [H1 H2] HF IH]; intros s Hs.
  - reflexivity.
  - rewrite run_cons.
    pose proof (other_keywords_keep_warnings v l s H1 H2 Hs) as E.
    pose proof (non_id_keeps_registry v l s H1) as R.
    destruct (loop_body v l s) as [[[]|e] s']; cbn [snd] in *;
      [rewrite IH; [exact E | rewrite R; exact Hs] | exact E].
Qed.

Lemma main_counters v fn lines :
  errors (snd (main v fn (Opened lines))) =
  errors (snd (run v lines (start fn))) /\
  warnings (snd (main v fn (Opened lines))) =
  warnings (snd (run v lines (start fn))).
Proof.
  rewrite script_opened. pose proof (run_raises v lines (start fn)) as Hr.
  destruct (run v lines (start fn)) as [[[]|e] s]; cbn [fst snd] in *.
  - destruct s; split; reflexivity.
  - destruct (Hr e eq_refl) as [-> | ->]; split; reflexivity.
Qed.

(** X10. Errors come from [id] and [name] lines only: a file without
    such lines ends with an error count of 0, also when it shares addresses
    or stops at an exception, and with status 0 when the scan reaches the end
    of the file. *)
Theorem no_id_or_name_line_no_error (v : bool) (node_filename : string)
  (lines : list string) :
  Forall (fun l => keyword l <> "id" /\ keyword l <> "name") lines ->
  let r := main v node_filename (Opened lines) in
  errors (snd r) = 0 /\
  (reaches_eof v node_filename lines -> exit_status (fst r) = 0%Z).
Proof.
  intros HF. cbv zeta.
  pose proof (run_other_keywords_keep_errors v lines (start node_filename) HF)
    as E.
  destruct (main_counters v node_filename lines) as [Em _].
  split; [rewrite Em; exact E|].
  unfold reaches_eof. intros H. rewrite script_opened.
  destruct (run v lines (start node_filename)) as [[[]|e] s];
    cbn [fst] in H; [|discriminate].
  cbn [snd] in E. destruct s as [nc w er nid nn nsl ad n2l i2n id2l ln out].
  revert E. unfold exit_status. mred. intros ->. reflexivity.
Qed.

Lemma no_id_or_name_line_no_error_witness :
  errors
    (snd (main false "nodes"
            (Opened ["begin node"; "address 10.0.0.1"; "end node";
                     "begin node"; "address 10.0.0.2"; "end node"]))) = 0.
Proof.
  apply (no_id_or_name_line_no_error false "nodes"
           ["begin node"; "address 10.0.0.1"; "end node";
            "begin node"; "address 10.0.0.2"; "end node"]).
  repeat constructor; vm_compute; discriminate.
Defined.

(** X11. Warnings come from [address] lines and, once an [id] line has
    been read, from "end node" lines only: a file without [id] and
    [address] lines ends with a warning count of 0, however many records
    lack an identifier. *)
Theorem no_id_or_address_line_no_warning (v : bool) (node_filename : string)
  (lines : list string) :
  Forall (fun l => keyword l <> "id" /\ keyword l <> "address") lines ->
  warnings (snd (main v node_filename (Opened lines))) = 0.
Proof.
  intros HF. destruct (main_counters v node_filename lines) as [_ Wm].
  rewrite Wm.
  apply (run_other_keywords_keep_warnings v lines (start node_filename) HF).
  reflexivity.
Qed.

Lemma no_id_or_address_line_no_warning_witness :
  warnings
    (snd (main true "nodes"
            (Opened ["begin node"; "name a"; "end node";
                     "begin node"; "name b"; "end node"]))) = 0.
Proof.
  apply (no_id_or_address_line_no_warning true "nodes"
           ["begin node"; "name a"; "end node";
            "begin node"; "name b"; "end node"]).
  repeat constructor; vm_compute; discriminate.
Defined.

(** X17. An [address] line whose value is not yet in the address registry
    claims it for the active name, as it is at that line: the name of an
    earlier record if the record has no [name] line before, or [None].
    Nothing but the verbose line is printed and no counter changes. *)
Theorem address_line_first_claim (v : bool) (line : string) (s : state) :
  keyword line = "address" ->
  ipaddr_to_nodename s !! value line = None ->
  let r := loop_body v line s in
  fst r = Ok tt /\
  address (snd r) = Some (value line) /\
  ipaddr_to_nodename (snd r) =
  <[value line := node_name s]> (ipaddr_to_nodename s) /\
  node_name (snd r) = node_name s /\
  errors (snd r) = errors s /\ warnings (snd r) = warnings s /\
  stdout (snd r) =
  (stdout s ++ info_line v ("  address " +:+ value line))%list.
Proof.
  unfold keyword, value, loop_body.
  destruct (partition_space (strip line)) as [[e0 sep] e2]. intros ->.
  cbv zeta.
  destruct s as [nc w er nid nn nsl ad n2l i2n id2l ln out].
  unfold info_line. mred. intros Hk.
  assert (Hc : contains i2n e2 = false)
    by (unfold contains; rewrite Hk; apply bool_decide_eq_false;
        intros [? [=]]).
  destruct v;
    repeat (first [rewrite Hc | rewrite Hk | mcase]; mred);
    rewrite ?app_nil_r; repeat split.
Qed.

Lemma address_line_first_claim_witness :
  ipaddr_to_nodename
    (snd (loop_body false "address 10.0.0.9"
            (snd (run false
                    ["begin node"; "name a"; "end node"; "begin node"]
                    initial)))) !! "10.0.0.9" = Some (Some "a").
Proof.
  assert (K : keyword "address 10.0.0.9" = "address") by reflexivity.
  destruct (address_line_first_claim false "address 10.0.0.9"
              (snd (run false
                      ["begin node"; "name a"; "end node"; "begin node"]
                      initial)) K)
    as (_ & _ & H & _); [vm_compute; reflexivity |].
  rewrite H. vm_compute. reflexivity.
Defined.

(** X18. A record start resets nothing of the previous record: the line
    "begin node" never raises and leaves the active identifier, name and
    address, the three registries and the warning and error counts as they
    are; it prints one line in verbose mode and none otherwise. *)
Theorem record_start_keeps_previous_fields (v : bool) (line : string)
  (s : state) :
  strip line = "begin node" ->
  let r := loop_body v line s in
  fst r = Ok tt /\
  node_id (snd r) = node_id s /\ node_name (snd r) = node_name s /\
  address (snd r) = address s /\
  nodeid_to_line (snd r) = nodeid_to_line s /\
  nodename_to_line (snd r) = nodename_to_line s /\
  ipaddr_to_nodename (snd r) = ipaddr_to_nodename s /\
  warnings (snd r) = warnings s /\ errors (snd r) = errors s /\
  stdout (snd r) =
  (stdout s ++
   info_line v ("New node starting at line " +:+ str (line_number s + 1)))%list.
Proof.
  intros H. cbv zeta. rewrite (loop_body_begin v line s H).
  destruct s as [nc w er nid nn nsl ad n2l i2n id2l ln out].
  unfold info_line. destruct v; mred; rewrite ?app_nil_r; repeat split.
Qed.

Lemma record_start_keeps_previous_fields_witness :
  node_name
    (snd (loop_body true "begin node"
            (snd (run true ["begin node"; "name a"; "end node"] initial)))) =
  Some "a".
Proof.
  assert (K : strip "begin node" = "begin node") by reflexivity.
  destruct (record_start_keeps_previous_fields true "begin node"
              (snd (run true ["begin node"; "name a"; "end node"] initial)) K)
    as (_ & _ & H & _).
  rewrite H. vm_compute. reflexivity.
Defined.

(** ** The options of the command line *)

Lemma lstrip_rstrip s : lstrip (rstrip s) = rstrip (lstrip s).
Proof.
  induction s as [|c s IH]; [reflexivity|].
  destruct (isspace c) eqn:Hc.
  - cbn [lstrip rstrip]. rewrite Hc, <- IH.
    destruct (rstrip s) as [|d r]; [reflexivity|].
    cbn [lstrip]. rewrite Hc. reflexivity.
  - rewrite (rstrip_cons c s Hc). cbn [lstrip]. rewrite Hc.
    symmetry. apply rstrip_cons, Hc.
Qed.

Lemma strip_rstrip s : strip (rstrip s) = strip s.
Proof. unfold strip. rewrite lstrip_rstrip. apply rstrip_idem. Qed.

Lemma options_loop_app o1 o2 v fn :
  Cli.options_loop (o1 ++ o2) v fn =
  match Cli.options_loop o1 v fn with
  | Cli.Start v' fn' => Cli.options_loop o2 v' fn'
  | r => r
  end.
Proof.
  revert v fn. induction o1 as [|[opt arg] o1 IH]; intros v fn;
    [reflexivity|].
  cbn [app Cli.options_loop].
  destruct ((opt =? "-h") || (opt =? "--help"))%string; [reflexivity|].
  destruct ((opt =? "-v") || (opt =? "--verbose"))%string; [apply IH|].
  destruct ((opt =? "-f") || (opt =? "--file"))%string; [|apply IH].
  destruct (strip arg) as [|c tl]; [reflexivity|].
  destruct (Ascii.eqb c "="%char); apply IH.
Qed.

(** X12. The first [-h] or [--help] that is reached ends the run: the
    usage text is all that is printed, the status is 0, the options after it
    are not looked at and no file is opened, whatever the file system is. *)
Theorem help_prints_usage_and_exits (myname opt arg : string)
  (before rest : list (string * string)) (v : bool) (fn : string)
  (fs : string -> open_result) :
  opt = "-h" \/ opt = "--help" ->
  Cli.options_loop before false Cli.default_node_filename = Cli.Start v fn ->
  Cli.program myname (Cli.Options (before ++ (opt, arg) :: rest)) fs =
  (Cli.myusage myname, 0%Z).
Proof.
  intros Hopt Hb. unfold Cli.program, Cli.parse_options.
  rewrite options_loop_app, Hb. cbn [Cli.options_loop].
  destruct Hopt as [-> | ->]; reflexivity.
Qed.

Lemma help_prints_usage_and_exits_witness :
  snd (Cli.program "ncchecknodefile"
         (Cli.Options ([("-v", ""); ("-f", "nodes")] ++
                       ("--help", "") :: [("-f", " ")]))
         (fun _ => OpenError PermissionError)) = 0%Z.
Proof.
  rewrite (help_prints_usage_and_exits "ncchecknodefile" "--help" ""
             [("-v", ""); ("-f", "nodes")] [("-f", " ")] true "nodes"
             (fun _ => OpenError PermissionError));
    [reflexivity | right; reflexivity | reflexivity].
Defined.

(** X13. When the options are parsed to their end, the scan is verbose
    exactly when one of them is [-v] or [--verbose] (or the mode was on
    before): no option switches the verbose mode off. *)
Theorem verbose_iff_some_verbose_option (user_options : list (string * string))
  (v : bool) (fn : string) (v' : bool) (fn' : string) :
  Cli.options_loop user_options v fn = Cli.Start v' fn' ->
  v' = v || existsb is_verbose_option user_options.
Proof.
  revert v fn. induction user_options as [|[opt arg] o IH]; intros v fn.
  - cbn. intros [= -> _]. rewrite orb_false_r. reflexivity.
  - cbn [Cli.options_loop existsb]. unfold is_verbose_option at 1.
    cbn [fst].
    destruct ((opt =? "-h") || (opt =? "--help"))%string; [intros [=]|].
    destruct ((opt =? "-v") || (opt =? "--verbose"))%string.
    + intros H. rewrite (IH _ _ H). rewrite orb_true_r. reflexivity.
    + cbn [orb].
      destruct ((opt =? "-f") || (opt =? "--file"))%string; [|apply IH].
      destruct (strip arg) as [|c tl]; [intros [=]|].
      destruct (Ascii.eqb c "="%char); apply IH.
Qed.

Lemma verbose_iff_some_verbose_option_witness :
  true = false || existsb is_verbose_option [("-f", "nodes"); ("--verbose", "")].
Proof.
  apply (verbose_iff_some_verbose_option [("-f", "nodes"); ("--verbose", "")]
           false Cli.default_node_filename true "nodes").
  reflexivity.
Defined.

(** X14. A [-f] or [--file] option whose argument is empty or blank stops
    the script: [arg[0]] raises an [IndexError] that nothing catches, so
    nothing is printed, not the usage either, the status is 1 and no file is
    opened, whatever options follow. *)
Theorem blank_file_argument_raises (myname opt arg : string)
  (before rest : list (string * string)) (v : bool) (fn : string)
  (fs : string -> open_result) :
  opt = "-f" \/ opt = "--file" ->
  strip arg = "" ->
  Cli.options_loop before false Cli.default_node_filename = Cli.Start v fn ->
  Cli.parse_options (Cli.Options (before ++ (opt, arg) :: rest)) =
  Cli.IndexError /\
  Cli.program myname (Cli.Options (before ++ (opt, arg) :: rest)) fs =
  ([], 1%Z).
Proof.
  intros Hopt Harg Hb. unfold Cli.program, Cli.parse_options.
  rewrite options_loop_app, Hb. cbn [Cli.options_loop]. rewrite Harg.
  destruct Hopt as [-> | ->]; split; reflexivity.
Qed.

Lemma blank_file_argument_raises_witness :
  Cli.parse_options (Cli.Options ([("-v", "")] ++ ("-f", "  ") :: [])) =
  Cli.IndexError.
Proof.
  apply (blank_file_argument_raises "ncchecknodefile" "-f" "  "
           [("-v", "")] [] true Cli.default_node_filename
           (fun _ => Opened []));
    [left; reflexivity | reflexivity | reflexivity].
Defined.

(** X15. One leading [=] of the argument of [-f] or [--file] is dropped:
    when the file name is not blank and does not itself start with [=],
    [-f=NAME] and [-f NAME] do the same, with any whitespace around the name
    and around the [=] removed. *)
Theorem leading_equals_is_dropped (opt arg : string) (c : ascii) (t : string)
  (rest : list (string * string)) (v : bool) (fn : string) :
  opt = "-f" \/ opt = "--file" ->
  strip arg = String c t -> c <> "="%char ->
  Cli.options_loop ((opt, "=" +:+ arg) :: rest) v fn =
  Cli.options_loop rest v (strip arg) /\
  Cli.options_loop ((opt, arg) :: rest) v fn =
  Cli.options_loop rest v (strip arg).
Proof.
  intros Hopt Harg Hc.
  assert (Hs : strip ("=" +:+ arg) = String "="%char (rstrip arg)).
  { unfold strip. change ("=" +:+ arg) with (String "="%char arg).
    cbn [lstrip]. change (isspace "="%char) with false. cbv iota.
    apply rstrip_cons. reflexivity. }
  assert (Hne : Ascii.eqb c "="%char = false)
    by (apply Ascii.eqb_neq; exact Hc).
  cbn [Cli.options_loop]. rewrite Hs, Harg, Hne, Ascii.eqb_refl.
  rewrite strip_rstrip, Harg.
  destruct Hopt as [-> | ->]; split; reflexivity.
Qed.

Lemma leading_equals_is_dropped_witness :
  Cli.options_loop [("--file", "=" +:+ " /tmp/nodes ")] false "x" =
  Cli.options_loop [] false (strip " /tmp/nodes ").
Proof.
  apply (leading_equals_is_dropped "--file" " /tmp/nodes " "/"%char
           "tmp/nodes" [] false "x");
    [right; reflexivity | reflexivity | discriminate].
Defined.

(** X16. The last [-f] or [--file] option wins: what such an option and
    the options after it give does not depend on the file name chosen
    before, be it the default or the name of an earlier option. *)
Theorem last_file_option_wins (opt arg : string)
  (before rest : list (string * string)) (v v1 : bool) (fn fn1 fn2 : string) :
  opt = "-f" \/ opt = "--file" ->
  Cli.options_loop before v fn = Cli.Start v1 fn1 ->
  Cli.options_loop (before ++ (opt, arg) :: rest) v fn =
  Cli.options_loop ((opt, arg) :: rest) v1 fn2.
Proof.
  intros Hopt Hb. rewrite options_loop_app, Hb. cbn [Cli.options_loop].
  destruct Hopt as [-> | ->]; cbn [String.eqb Ascii.eqb Bool.eqb orb];
    reflexivity.
Qed.

Lemma last_file_option_wins_witness :
  Cli.options_loop ([("-f", "first")] ++ ("-f", "second") :: [("-v", "")])
    false Cli.default_node_filename =
  Cli.options_loop (("-f", "second") :: [("-v", "")]) false "other".
Proof.
  apply (last_file_option_wins "-f" "second" [("-f", "first")] [("-v", "")]
           false false Cli.default_node_filename "first" "other");
    [left; reflexivity | reflexivity].
Defined.
